(** * Operations Copilot: incremental ingestion and anomaly detection

    A shallow embedding of

    - [modular_scripts/extraction/extraction_engine.py]
      ([extract_text_from_pdf], [analyze_with_gemini]),
    - [modular_scripts/bulk_processor.py]
      ([get_processed_files], [bulk_process_invoices]),
    - [modular_scripts/analysis/anomaly_detector.py]
      ([configure_genai], [get_insights_from_gemini],
       [detect_financial_anomalies]),

    followed by the properties of the ingestion and detection pipeline.

    Modelling conventions.

    - A CSV file is the list of its lines, a line the list of its cells.
      A cell is what pandas makes of its text: [NaN] (an empty or NA
      token), [Num q] (text that reads as a number) or [Str s] (any other
      text); a vendor name that reads as a number is compared as a number.
      Files end with a newline, so appending lines never merges two of
      them, and the disk can always be read and written.
    - Amounts and the spike threshold are exact rationals ([Q]); the
      rounding of binary floating point and the infinities are outside the
      model.  [NaN] is the value [pd.to_numeric(..., errors='coerce')]
      gives to a cell that is not a number.
    - Calls that leave the program (PyMuPDF, the Gemini client,
      [json.loads], [pd.to_datetime]) are parameters of the sections that
      use them: functions, so that asking twice gives the same answer.
    - [print] appends an [event] to the log of the run; the log is part of
      the outcome, next to the files and to the way the call ended
      (returned [None], or raised). *)

From Stdlib Require Import List String Ascii Bool Arith NArith ZArith QArith.
From Stdlib Require Import Qround Qabs Lia Lqa Sorted Permutation DecimalString.
Import ListNotations.

Local Open Scope string_scope.
Local Open Scope list_scope.

(** ** Python values *)

Module Py.

(** A Python [str] whose characters matter one by one: the sequence of its
    code points. *)
Definition text := list N.

(** An exception, by its message. *)
Definition exn := string.

(** The result of a call: the value returned, or the exception raised. *)
Inductive res (A : Type) : Type :=
| Ret (a : A)
| Raise (e : exn).
Arguments Ret {A} a.
Arguments Raise {A} e.

(** [str.isspace] for one code point. *)
Definition isspace (c : N) : bool :=
  ((9 <=? c) && (c <=? 13) || (28 <=? c) && (c <=? 32) || (c =? 133) ||
   (c =? 160) || (c =? 5760) || (8192 <=? c) && (c <=? 8202) ||
   (c =? 8232) || (c =? 8233) || (c =? 8239) || (c =? 8287) ||
   (c =? 12288))%N.

Fixpoint lstrip (s : text) : text :=
  match s with
  | [] => []
  | c :: s' => if isspace c then lstrip s' else s
  end.

Definition rstrip (s : text) : text := rev (lstrip (rev s)).

(** [s.strip()] *)
Definition strip (s : text) : text := rstrip (lstrip s).

Fixpoint startswith (old s : text) : bool :=
  match old, s with
  | [], _ => true
  | c :: old', d :: s' => (c =? d)%N && startswith old' s'
  | _ :: _, [] => false
  end.

(** [s.replace(old, new)] for a non-empty [old]: occurrences are taken from
    the left and do not overlap.  [skip] counts the characters of a matched
    occurrence still to be passed over. *)
Fixpoint replace_from (old new : text) (skip : nat) (s : text) : text :=
  match s with
  | [] => []
  | c :: s' =>
      match skip with
      | S k => replace_from old new k s'
      | O =>
          if startswith old s
          then new ++ replace_from old new (List.length old - 1) s'
          else c :: replace_from old new 0 s'
      end
  end.

Definition replace (old new s : text) : text := replace_from old new 0 s.

(** Truth value of an optional string: [None] and [''] are false. *)
Definition truthy (v : option string) : bool :=
  match v with
  | Some s => negb (String.eqb s "")
  | None => false
  end.

(** Rounding to the nearest integer, ties to the even one: what the
    format specifications [.2f] and [.0%] do with the digits they drop. *)
Definition round_half_even (q : Q) : Z :=
  let f := Qfloor q in
  match Qcompare (q - inject_Z f) (1 # 2) with
  | Lt => f
  | Gt => (f + 1)%Z
  | Eq => if Z.even f then f else (f + 1)%Z
  end.

(** The decimal digits of a natural number. *)
Definition digits (n : Z) : string :=
  NilZero.string_of_uint (N.to_uint (Z.to_N n)).

Definition digit (n : Z) : ascii :=
  ascii_of_N (48 + Z.to_N n).

Definition sign (q : Q) : string :=
  match Qcompare q 0 with Lt => "-" | _ => "" end.

(** [f"{q:.2f}"] *)
Definition format_2f (q : Q) : string :=
  let n := round_half_even (Qabs q * 100) in
  (sign q ++ digits (n / 100) ++ "."
   ++ String (digit ((n / 10) mod 10)) (String (digit (n mod 10)) ""))%string.

(** [f"{q:.0%}"] *)
Definition format_percent (q : Q) : string :=
  (sign q ++ digits (round_half_even (Qabs q * 100)) ++ "%")%string.

End Py.

(** ** The part of pandas the scripts use *)

Module Pandas.

(** A scalar of a frame read from CSV. *)
Inductive cell : Type :=
| NaN
| Num (q : Q)
| Str (s : string).

Definition line := list cell.

Definition isna (c : cell) : bool :=
  match c with NaN => true | _ => false end.

(** Python's [==] on scalars: [nan != nan], and a number never equals a
    string. *)
Definition cell_eqb (a b : cell) : bool :=
  match a, b with
  | Num p, Num q => Qeq_bool p q
  | Str s, Str t => String.eqb s t
  | _, _ => false
  end.

(** The order [sort_values] and [groupby] put values in: ascending, missing
    values last.  A column read from CSV holds numbers or strings, never
    both; between the two, numbers come first here. *)
Definition cell_leb (a b : cell) : bool :=
  match a, b with
  | _, NaN => true
  | NaN, _ => false
  | Num p, Num q => Qle_bool p q
  | Num _, Str _ => true
  | Str _, Num _ => false
  | Str s, Str t => String.leb s t
  end.

(** Stable sort by insertion: an element goes in front of the first one it
    is not greater than, and the list is built from its right end, so equal
    elements keep their order. *)
Section StableSort.
Variable A : Type.
Variable leb : A -> A -> bool.

Fixpoint insert (x : A) (l : list A) : list A :=
  match l with
  | [] => [x]
  | y :: l' => if leb x y then x :: l else y :: insert x l'
  end.

Fixpoint stable_sort (l : list A) : list A :=
  match l with
  | [] => []
  | x :: l' => insert x (stable_sort l')
  end.
End StableSort.
Arguments insert {A} leb x l.
Arguments stable_sort {A} leb l.

(** Values in order of first appearance ([Series.unique], the keys of a
    [set]); every [NaN] counts as the same missing value. *)
Definition same_value (a b : cell) : bool :=
  cell_eqb a b || isna a && isna b.

Fixpoint unique (l : list cell) : list cell :=
  match l with
  | [] => []
  | c :: l' => c :: filter (fun d => negb (same_value c d)) (unique l')
  end.

(** A frame as [pd.read_csv] returns it: the header's labels, the number of
    leading cells of each line that became the index, and the lines. *)
Record DataFrame : Type := {
  columns : list cell;
  leading : nat;
  data : list line
}.

Inductive read_result : Type :=
| EmptyDataError
| ParserError
| Frame (df : DataFrame).

Definition is_blank_line (l : line) : bool :=
  match l with [] => true | _ => false end.

(** [pd.read_csv(path)] on the lines of the file.  Blank lines are skipped;
    a file with no line left raises [EmptyDataError].  The first line is the
    header.  The first data line may be longer than the header (the extra
    leading cells become the index); after it, a line with more cells than
    the widest of the header and the first data line raises [ParserError];
    shorter lines are read as if padded with [NaN]. *)
Definition read_csv (content : list line) : read_result :=
  match filter (fun l => negb (is_blank_line l)) content with
  | [] => EmptyDataError
  | header :: rows =>
      match rows with
      | [] => Frame {| columns := header; leading := 0; data := [] |}
      | first :: rest =>
          let width := Nat.max (List.length header) (List.length first) in
          if forallb (fun l => (List.length l <=? width)%nat) rest
          then Frame {| columns := header;
                        leading := width - List.length header;
                        data := rows |}
          else ParserError
      end
  end.

(** [name in df.columns] *)
Definition has_column (df : DataFrame) (name : string) : bool :=
  existsb (cell_eqb (Str name)) (columns df).

Fixpoint position (name : string) (labels : list cell) : nat :=
  match labels with
  | [] => 0
  | c :: labels' => if cell_eqb (Str name) c then 0 else S (position name labels')
  end.

(** The cell of line [l] under the column [name] (which the frame has). *)
Definition at_column (df : DataFrame) (name : string) (l : line) : cell :=
  nth (leading df + position name (columns df)) l NaN.

(** [df[name]] as the list of its values. *)
Definition column (df : DataFrame) (name : string) : list cell :=
  map (at_column df name) (data df).

(** [new_df.to_csv(path, mode='a', header=header, index=False)]: the lines
    the file holds afterwards. *)
Definition to_csv_append (existing : option (list line)) (labels : list string)
    (rows : list line) (header : bool) : list line :=
  match existing with Some old => old | None => [] end
  ++ (if header then [map Str labels] else [])
  ++ rows.

(** [Series.mean()] of a non-empty list of amounts. *)
Definition mean (l : list Q) : Q :=
  fold_left Qplus l 0 / inject_Z (Z.of_nat (List.length l)).

(** [a > b] *)
Definition Qgtb (a b : Q) : bool :=
  match Qcompare a b with Gt => true | _ => false end.

End Pandas.

(** ** Python dictionaries, in insertion order *)

Module Dict.
Import Pandas.

Definition dict := list (string * cell).

(** [k in d] *)
Fixpoint has (k : string) (d : dict) : bool :=
  match d with
  | [] => false
  | (k', _) :: d' => String.eqb k k' || has k d'
  end.

(** [d.get(k)] *)
Fixpoint get (k : string) (d : dict) : option cell :=
  match d with
  | [] => None
  | (k', v) :: d' => if String.eqb k k' then Some v else get k d'
  end.

(** [d[k] = v]: an existing key keeps its place, a new one goes last. *)
Fixpoint set (k : string) (v : cell) (d : dict) : dict :=
  match d with
  | [] => [(k, v)]
  | (k', v') :: d' =>
      if String.eqb k k' then (k, v) :: d' else (k', v') :: set k v d'
  end.

Definition keys (d : dict) : list string := map fst d.

Definition mem (k : string) (l : list string) : bool :=
  existsb (String.eqb k) l.

(** The columns of [pd.DataFrame(records)]: every key of every record, in
    order of first appearance. *)
Definition add_label (labels : list string) (k : string) : list string :=
  if mem k labels then labels else labels ++ [k].

Definition frame_labels (records : list dict) : list string :=
  fold_left (fun labels d => fold_left add_label (keys d) labels) records [].

(** The line of a record under the given columns; a key the record lacks
    gives [NaN]. *)
Definition record_line (labels : list string) (d : dict) : line :=
  map (fun k => match get k d with Some v => v | None => NaN end) labels.

End Dict.

(** ** What the scripts print *)

Inductive event : Type :=
(* extraction_engine.analyze_with_gemini *)
| GeminiCallFailed (e : Py.exn)
| RawResponseText (t : option Py.text)
(* bulk_processor.bulk_process_invoices *)
| StartingBulkProcessing
| ErrorApiKeyNotFound
| FoundPreviouslyProcessed (n : nat)
| ProcessingNewFile (filename : string)
| WarningNoText (filename : string)
| ErrorFromGemini (filename : string) (msg : option Pandas.cell)
| StagedForSaving (filename : string)
| CriticalError (filename : string) (e : Py.exn)
| FoundNewRecords (n : nat)
| AppendedNewData
| NoNewInvoiceFiles
| BulkProcessingComplete
(* anomaly_detector *)
| ErrorApiKeyNoInsights
| StartingAnomalyDetection
| ErrorLogFileNotFound
| MasterLogEmpty
| ErrorReadingLog (e : Py.exn)
| FoundDuplicates (n : nat)
| FoundSpikes (n : nat)
| NoAnomaliesDetected
| GeneratingSummary
| Summary (s : string)
| AnomalyDetails
| ReportSaved.

(** The credential sources: Streamlit's secrets (the import or the lookup
    may raise, which the scripts catch) and the process environment. *)
Inductive secrets : Type :=
| SecretsRaise
| SecretsGet (v : option string).

Record Credentials : Type := {
  st_secrets : secrets;
  environ : option string
}.

(** ** extraction_engine.py *)

Module ExtractionEngine.
Import Py Pandas Dict.

(** What [model.generate_content(prompt)] leaves behind: the call raised,
    or there is a response whose [.text] raises (a blocked answer), or a
    response with text. *)
Inductive response : Type :=
| CallRaised (e : exn)
| TextRaises (e : exn)
| ResponseText (t : text).

(** What [json.loads] returns: an object, or any other JSON value.  The
    values of an object are kept as the cells they make in the CSV file. *)
Inductive json : Type :=
| JDict (d : dict)
| JOther.

Definition error_dict : json :=
  JDict [("error", Str "Failed to parse JSON from Gemini response.")].

(** The code points of the fence markers the answer is cleaned of. *)
Definition fence : text := [96; 96; 96]%N.
Definition fence_json : text := (fence ++ [106; 115; 111; 110])%N.

Section Adapters.
(** [fitz.open(path)]: raises, or gives the pages, each with what its
    [get_text()] does. *)
Variable fitz_open : string -> res (list (res text)).
(** The Gemini call, as a function of the text put in the prompt. *)
Variable generate_content : text -> response.
Variable json_loads : text -> res json.

Fixpoint get_pages_text (acc : text) (pages : list (res text)) : res text :=
  match pages with
  | [] => Ret acc
  | Ret t :: pages' => get_pages_text (acc ++ t) pages'
  | Raise e :: _ => Raise e
  end.

Definition extract_text_from_pdf (pdf_path : string) : res text :=
  match fitz_open pdf_path with
  | Raise e => Raise e
  | Ret doc => get_pages_text [] doc
  end.

(** Returns what was printed and the result.  In the handler, the second
    [print] reads [response.text] again: when that is what raised, it
    raises once more and the exception leaves the function.  Building the
    model object and the prompt does not raise. *)
Definition analyze_with_gemini (raw_text : text) : list event * res json :=
  match generate_content raw_text with
  | CallRaised e =>
      ([GeminiCallFailed e; RawResponseText None], Ret error_dict)
  | TextRaises e => ([GeminiCallFailed e], Raise e)
  | ResponseText t =>
      let json_text := strip (replace fence [] (replace fence_json [] t)) in
      match json_loads json_text with
      | Ret v => ([], Ret v)
      | Raise e =>
          ([GeminiCallFailed e; RawResponseText (Some t)], Ret error_dict)
      end
  end.
End Adapters.

End ExtractionEngine.

(** ** bulk_processor.py *)

Module BulkProcessor.
Import Py Pandas Dict ExtractionEngine.

(** The files the script sees: the master log ([None] when it does not
    exist) and the names [glob] finds under [DATA_DIR/*.pdf]. *)
Record Disk : Type := {
  LOG_FILE : option (list line);
  pdf_files : list string
}.

(** How a run ends: the way the call ended ([Ret tt] is Python's [None]),
    the files afterwards, and what was printed. *)
Record Outcome : Type := {
  ended : res unit;
  disk : Disk;
  printed : list event
}.

Definition get_processed_files (log : option (list line)) : res (list cell) :=
  match log with
  | None => Ret []
  | Some content =>
      match read_csv content with
      | Frame df =>
          if has_column df "source_file"
          then Ret (unique (column df "source_file"))
          else Ret []
      | EmptyDataError => Ret []
      | ParserError => Raise "pandas.errors.ParserError"
      end
  end.

(** [filename in processed_files] *)
Definition in_processed (filename : string) (processed_files : list cell) : bool :=
  existsb (cell_eqb (Str filename)) processed_files.

(** The key the script settles on, if any. *)
Definition resolve_api_key (c : Credentials) : option string :=
  let api_key :=
    match st_secrets c with
    | SecretsGet v => v
    | SecretsRaise => None
    end in
  if truthy api_key then api_key else environ c.

(** The state of the main loop. *)
Record Loop : Type := {
  new_records : list dict;
  out : list event
}.

Definition print (e : event) (st : Loop) : Loop :=
  {| new_records := new_records st; out := out st ++ [e] |}.

Definition prints (es : list event) (st : Loop) : Loop :=
  {| new_records := new_records st; out := out st ++ es |}.

Definition stage (d : dict) (st : Loop) : Loop :=
  {| new_records := new_records st ++ [d]; out := out st |}.

Section Run.
Variable fitz_open : string -> res (list (res text)).
Variable generate_content : text -> response.
Variable json_loads : text -> res json.

(** One turn of the loop over [pdf_files].  A value that is not an object
    raises inside the [try] ([in], [.get] or the item assignment fail on
    it), which the handler reports like any other exception. *)
Definition loop_body (processed_files : list cell) (st : Loop)
    (filename : string) : Loop :=
  if in_processed filename processed_files then st
  else
    let st := print (ProcessingNewFile filename) st in
    match extract_text_from_pdf fitz_open filename with
    | Raise e => print (CriticalError filename e) st
    | Ret raw_text =>
        match raw_text, strip raw_text with
        | [], _ | _, [] => print (WarningNoText filename) st
        | _, _ =>
            let (said, structured_data) :=
              analyze_with_gemini generate_content json_loads raw_text in
            let st := prints said st in
            match structured_data with
            | Raise e => print (CriticalError filename e) st
            | Ret JOther => print (CriticalError filename "TypeError") st
            | Ret (JDict d) =>
                if has "error" d
                then print (ErrorFromGemini filename (get "error" d)) st
                else print (StagedForSaving filename)
                       (stage (set "source_file" (Str filename) d) st)
            end
        end
    end.

(** The columns of [new_df] once [source_file] is moved to the front. *)
Definition reorder (labels : list string) : list string :=
  if mem "source_file" labels
  then "source_file"
       :: filter (fun col => negb (String.eqb col "source_file")) labels
  else labels.

Definition bulk_process_invoices (c : Credentials) (d : Disk) : Outcome :=
  let said := [StartingBulkProcessing] in
  if negb (truthy (resolve_api_key c)) then
    {| ended := Ret tt; disk := d; printed := said ++ [ErrorApiKeyNotFound] |}
  else
    match get_processed_files (LOG_FILE d) with
    | Raise e => {| ended := Raise e; disk := d; printed := said |}
    | Ret processed_files =>
        let said := said ++ [FoundPreviouslyProcessed (List.length processed_files)] in
        let st := fold_left (loop_body processed_files) (pdf_files d)
                    {| new_records := []; out := said |} in
        match new_records st with
        | [] =>
            {| ended := Ret tt; disk := d;
               printed := out st ++ [NoNewInvoiceFiles; BulkProcessingComplete] |}
        | _ :: _ =>
            let cols := reorder (frame_labels (new_records st)) in
            let header :=
              match LOG_FILE d with None => true | Some _ => false end in
            let rows := map (record_line cols) (new_records st) in
            {| ended := Ret tt;
               disk := {| LOG_FILE := Some (to_csv_append (LOG_FILE d) cols rows header);
                          pdf_files := pdf_files d |};
               printed := out st ++ [FoundNewRecords (List.length (new_records st));
                                     AppendedNewData; BulkProcessingComplete] |}
        end
    end.
End Run.

End BulkProcessor.

(** ** anomaly_detector.py *)

Module AnomalyDetector.
Import Py Pandas.

(** The [date] column of a line: the text read from the file, and after
    [pd.to_datetime(..., errors='coerce')] a time stamp ([None] is [NaT]). *)
Inductive date_value : Type :=
| Text (c : cell)
| Timestamp (t : option Z).

(** A line of [df] after cleaning: the three columns the analysis reads
    ([date] is [None] when the file has no such column) and the line as it
    stands in the file. *)
Record row : Type := {
  vendor_name : cell;
  total_amount : Q;
  date : option date_value;
  cells : line
}.

(** An entry of the report: the flagged line and the two columns the
    analysis adds ([details] only for a spike). *)
Record anomaly : Type := {
  entry : row;
  anomaly_type : string;
  details : option string
}.

(** The files the script sees: the master log and the report ([None] when
    they do not exist). *)
Record Disk : Type := {
  LOG_FILE : option (list line);
  REPORT_FILE : option (list anomaly)
}.

Record Outcome : Type := {
  ended : res unit;
  disk : Disk;
  printed : list event
}.

(** [pd.to_numeric(c, errors='coerce')] on one cell. *)
Definition to_numeric (c : cell) : cell :=
  match c with Num q => Num q | _ => NaN end.

(** The frame after [df['total_amount'] = pd.to_numeric(...)] and
    [df.dropna(subset=['total_amount', 'vendor_name'])]. *)
Definition clean_line (frame : DataFrame) (l : line) : list row :=
  match to_numeric (at_column frame "total_amount" l),
        at_column frame "vendor_name" l with
  | Num q, (Num _ | Str _) as v =>
      [{| vendor_name := v;
          total_amount := q;
          date := if has_column frame "date"
                  then Some (Text (at_column frame "date" l)) else None;
          cells := l |}]
  | _, _ => []
  end.

Definition clean (frame : DataFrame) : list row :=
  flat_map (clean_line frame) (data frame).

(** Equality on the subset [['vendor_name', 'total_amount']]. *)
Definition same_key (r s : row) : bool :=
  cell_eqb (vendor_name r) (vendor_name s)
  && Qeq_bool (total_amount r) (total_amount s).

(** [df.duplicated(subset=..., keep=False)]: a line is marked when its key
    occurs on a line before it ([keep='first'] marks those) or on a line
    after it ([keep='last'] marks those). *)
Fixpoint duplicated_from (before df : list row) : list bool :=
  match df with
  | [] => []
  | r :: after =>
      (existsb (same_key r) before || existsb (same_key r) after)
      :: duplicated_from (r :: before) after
  end.

Definition duplicated (df : list row) : list bool := duplicated_from [] df.

(** [df[mask]] *)
Fixpoint select (mask : list bool) (df : list row) : list row :=
  match mask, df with
  | b :: mask', r :: df' => if b then r :: select mask' df' else select mask' df'
  | _, _ => []
  end.

Definition mark_duplicate (r : row) : anomaly :=
  {| entry := r; anomaly_type := "Potential Duplicate Billing"; details := None |}.

(** [duplicates]: the marked lines, each with its [anomaly_type]. *)
Definition find_duplicates (df : list row) : list anomaly :=
  map mark_duplicate (select (duplicated df) df).

(** The keys of [df.sort_values(by=['vendor_name', 'date'])]: vendors
    ascending, then dates ascending with [NaT] last. *)
Definition date_key (r : row) : option Z :=
  match date r with
  | Some (Timestamp t) => t
  | _ => None
  end.

Definition date_leb (a b : option Z) : bool :=
  match a, b with
  | _, None => true
  | None, Some _ => false
  | Some x, Some y => (x <=? y)%Z
  end.

Definition row_leb (r s : row) : bool :=
  if cell_leb (vendor_name r) (vendor_name s)
  then if cell_leb (vendor_name s) (vendor_name r)
       then date_leb (date_key r) (date_key s)
       else true
  else false.

(** [df.groupby('vendor_name')]: one group per vendor, vendors ascending,
    the lines of a group in the order they have in [df]. *)
Definition groupby_vendor (df : list row) : list (cell * list row) :=
  map (fun vendor => (vendor, filter (fun r => cell_eqb (vendor_name r) vendor) df))
      (stable_sort cell_leb (unique (map vendor_name df))).

Definition spike_details (amount avg_cost : Q) : string :=
  ("Amount " ++ format_2f amount ++ " vs. Avg " ++ format_2f avg_cost)%string.

Definition spike_type (spike_threshold : Q) : string :=
  ("Price Spike (>" ++ format_percent spike_threshold ++ ")")%string.

(** The body of the loop over the groups: the entry added to [spikes], if
    any. *)
Definition spike_entry (spike_threshold : Q) (group : list row) : option anomaly :=
  if (1 <? List.length group)%nat then
    let avg_cost := mean (map total_amount (removelast group)) in
    match rev group with
    | latest_entry :: _ =>
        if Qgtb (total_amount latest_entry) (avg_cost * (1 + spike_threshold))
        then Some {| entry := latest_entry;
                     anomaly_type := spike_type spike_threshold;
                     details := Some (spike_details (total_amount latest_entry) avg_cost) |}
        else None
    | [] => None
    end
  else None.

Definition default_spike_threshold : Q := 20 # 100.

Section Run.
(** [pd.to_datetime(c, errors='coerce')] on one cell. *)
Variable to_datetime : cell -> option Z.
(** The Gemini call of [get_insights_from_gemini] with the stripped text
    of its answer, as a function of the anomalies in the prompt. *)
Variable generate_summary : list anomaly -> res string.

Definition convert_date (r : row) : row :=
  {| vendor_name := vendor_name r;
     total_amount := total_amount r;
     date := match date r with
             | Some (Text c) => Some (Timestamp (to_datetime c))
             | other => other
             end;
     cells := cells r |}.

(** [df] as the spike analysis sees it: dates converted and lines sorted
    when there is a [date] column, unchanged otherwise. *)
Definition sorted_by_vendor_date (has_date : bool) (df : list row) : list row :=
  if has_date then stable_sort row_leb (map convert_date df) else df.

Definition find_spikes (spike_threshold : Q) (df : list row) : list anomaly :=
  flat_map (fun g => match spike_entry spike_threshold (snd g) with
                     | Some a => [a]
                     | None => []
                     end)
           (groupby_vendor df).

(** Returns what was printed and whether a key was found. *)
Definition configure_genai (c : Credentials) : list event * bool :=
  let api_key :=
    match st_secrets c with
    | SecretsGet v => v
    | SecretsRaise => None
    end in
  let api_key := if truthy api_key then api_key else environ c in
  if truthy api_key then ([], true) else ([ErrorApiKeyNoInsights], false).

Definition get_insights_from_gemini (c : Credentials)
    (anomalies_df : list anomaly) : list event * string :=
  let (said, ok) := configure_genai c in
  if ok then
    match generate_summary anomalies_df with
    | Ret s => (said, s)
    | Raise e =>
        (said, ("An error occurred while communicating with the AI model: " ++ e)%string)
    end
  else
    (said,
     "Could not generate AI summary because GEMINI_API_KEY is not configured.").

Definition stop (d : Disk) (said : list event) : Outcome :=
  {| ended := Ret tt; disk := d; printed := said |}.

Definition detect_financial_anomalies (spike_threshold : Q)
    (c : Credentials) (d : Disk) : Outcome :=
  let said := [StartingAnomalyDetection] in
  match LOG_FILE d with
  | None => stop d (said ++ [ErrorLogFileNotFound])
  | Some content =>
      match read_csv content with
      | EmptyDataError => stop d (said ++ [MasterLogEmpty])
      | ParserError =>
          stop d (said ++ [ErrorReadingLog "pandas.errors.ParserError"])
      | Frame frame =>
          if negb (has_column frame "total_amount"
                   && has_column frame "vendor_name")
          then stop d (said ++ [ErrorReadingLog "KeyError"])
          else
            let df := clean frame in
            (* 2. Duplicate Detection *)
            let duplicates := find_duplicates df in
            let '(all_anomalies, said) :=
              match duplicates with
              | [] => ([], said)
              | _ :: _ =>
                  ([duplicates], said ++ [FoundDuplicates (List.length duplicates)])
              end in
            (* 3. Price Spike Analysis *)
            let df := sorted_by_vendor_date (has_column frame "date") df in
            let spikes := find_spikes spike_threshold df in
            let '(all_anomalies, said) :=
              match spikes with
              | [] => (all_anomalies, said)
              | _ :: _ =>
                  (all_anomalies ++ [spikes],
                   said ++ [FoundSpikes (List.length spikes)])
              end in
            (* 4. Consolidate and Output *)
            match all_anomalies with
            | [] => stop d (said ++ [NoAnomaliesDetected])
            | _ :: _ =>
                let final_anomalies_df := List.concat all_anomalies in
                let (said', summary) :=
                  get_insights_from_gemini c final_anomalies_df in
                {| ended := Ret tt;
                   disk := {| LOG_FILE := LOG_FILE d;
                              REPORT_FILE := Some final_anomalies_df |};
                   printed := said ++ [GeneratingSummary] ++ said'
                              ++ [Summary summary; AnomalyDetails; ReportSaved] |}
            end
      end
  end.
End Run.

End AnomalyDetector.

(** ** app.py: the refresh button *)

Module App.
Import Py Pandas.

(** The files under [DATA_DIR]: the master log, the report and the PDF
    documents. *)
Record Files : Type := {
  LOG_FILE : option (list line);
  REPORT_FILE : option (list AnomalyDetector.anomaly);
  pdf_files : list string
}.

(** What [run_processing_pipeline] shows: [st.success], or [st.error] with
    the exception that ended the script ([e.stderr] holds its traceback). *)
Inductive message : Type :=
| DataRefreshed
| PipelineError (stderr : exn).

Section Run.
Variable fitz_open : string -> res (list (res text)).
Variable generate_content : text -> ExtractionEngine.response.
Variable json_loads : text -> res ExtractionEngine.json.
Variable to_datetime : cell -> option Z.
Variable generate_summary : list AnomalyDetector.anomaly -> res string.

(** The two scripts are run one after the other with [check=True]: a script
    that ends by raising exits with a non-zero status, which raises
    [CalledProcessError] and skips what follows.  The cache of [load_data]
    is not part of the state. *)
Definition run_processing_pipeline (c : Credentials) (files : Files)
    : Files * message :=
  let bulk :=
    BulkProcessor.bulk_process_invoices fitz_open generate_content json_loads c
      {| BulkProcessor.LOG_FILE := LOG_FILE files;
         BulkProcessor.pdf_files := pdf_files files |} in
  let files :=
    {| LOG_FILE := BulkProcessor.LOG_FILE (BulkProcessor.disk bulk);
       REPORT_FILE := REPORT_FILE files;
       pdf_files := BulkProcessor.pdf_files (BulkProcessor.disk bulk) |} in
  match BulkProcessor.ended bulk with
  | Raise e => (files, PipelineError e)
  | Ret _ =>
      let detector :=
        AnomalyDetector.detect_financial_anomalies to_datetime generate_summary
          AnomalyDetector.default_spike_threshold c
          {| AnomalyDetector.LOG_FILE := LOG_FILE files;
             AnomalyDetector.REPORT_FILE := REPORT_FILE files |} in
      let files :=
        {| LOG_FILE := AnomalyDetector.LOG_FILE (AnomalyDetector.disk detector);
           REPORT_FILE :=
             AnomalyDetector.REPORT_FILE (AnomalyDetector.disk detector);
           pdf_files := pdf_files files |} in
      match AnomalyDetector.ended detector with
      | Raise e => (files, PipelineError e)
      | Ret _ => (files, DataRefreshed)
      end
  end.
End Run.

End App.

(** * Properties *)

(** ** White space *)

Module TextFacts.
Import Py.

Lemma lstrip_nil s : lstrip s = [] <-> forallb isspace s = true.
Proof.
  induction s as [|c s IH]; simpl; [tauto|].
  destruct (isspace c); simpl; [exact IH|]. split; discriminate.
Qed.

(** What is left after [lstrip] does not start with white space. *)
Lemma lstrip_spaces s : forallb isspace (lstrip s) = true -> lstrip s = [].
Proof.
  induction s as [|c s IH]; simpl; [reflexivity|].
  destruct (isspace c) eqn:E; [exact IH|]. simpl. now rewrite E.
Qed.

Lemma forallb_rev {A} (f : A -> bool) l : forallb f (rev l) = forallb f l.
Proof.
  induction l as [|x l IH]; simpl; [reflexivity|].
  rewrite forallb_app, IH. simpl. rewrite andb_true_r. apply andb_comm.
Qed.

(** A text strips to nothing exactly when it is empty or all white
    space. *)
Lemma strip_nil s : strip s = [] <-> forallb isspace s = true.
Proof.
  unfold strip, rstrip. rewrite <- lstrip_nil. split.
  - intros H. apply (f_equal (@rev N)) in H. rewrite rev_involutive in H.
    simpl in H. apply lstrip_nil in H. rewrite forallb_rev in H.
    now apply lstrip_spaces.
  - now intros ->.
Qed.

End TextFacts.

(** ** Equality and order of cells *)

Module CellFacts.
Import Pandas.

Lemma cell_eqb_sym a b : cell_eqb a b = cell_eqb b a.
Proof.
  destruct a, b; simpl; auto using Qeq_bool_comm, String.eqb_sym.
Qed.

Lemma cell_eqb_trans a b c :
  cell_eqb a b = true -> cell_eqb b c = true -> cell_eqb a c = true.
Proof.
  destruct a, b, c; simpl; try discriminate.
  - apply Qeq_bool_trans.
  - rewrite !String.eqb_eq. congruence.
Qed.

Lemma cell_eqb_refl a : isna a = false -> cell_eqb a a = true.
Proof.
  destruct a; simpl; try discriminate; intros _.
  - apply Qeq_bool_refl.
  - apply String.eqb_refl.
Qed.

(** A cell equal to some cell is equal to itself. *)
Lemma cell_eqb_refl_l a b : cell_eqb a b = true -> cell_eqb a a = true.
Proof.
  intros H. apply cell_eqb_trans with b; [assumption|].
  now rewrite cell_eqb_sym.
Qed.









End CellFacts.

(** ** The stable sort *)

Module SortFacts.
Import Pandas.

Section Sorting.
Context {A : Type} (leb : A -> A -> bool).


Lemma insert_perm x l : Permutation (insert leb x l) (x :: l).
Proof.
  induction l as [|y l IH]; simpl; [reflexivity|].
  destruct (leb x y); [reflexivity|].
  rewrite IH. apply perm_swap.
Qed.

Lemma stable_sort_perm l : Permutation (stable_sort leb l) l.
Proof.
  induction l as [|x l IH]; simpl; [reflexivity|].
  rewrite insert_perm. now constructor.
Qed.



Hypothesis leb_total : forall x y, leb x y = true \/ leb y x = true.
Hypothesis leb_trans :
  forall x y z, leb x y = true -> leb y z = true -> leb x z = true.



End Sorting.

End SortFacts.

(** ** Duplicate detection *)

Module DuplicateFacts.
Import Py Pandas AnomalyDetector CellFacts.

(** The group of a line: the lines of the frame with its vendor and its
    amount. *)
Definition group_of (r : row) (df : list row) : list row :=
  filter (same_key r) df.

Definition in_group_of_two (df : list row) (r : row) : bool :=
  (2 <=? List.length (group_of r df))%nat.

(** Lines with the same key are exactly those with equal vendors and equal
    amounts. *)
Lemma same_key_iff r s :
  same_key r s = true <->
  cell_eqb (vendor_name r) (vendor_name s) = true
  /\ (total_amount r == total_amount s)%Q.
Proof.
  unfold same_key. now rewrite andb_true_iff, Qeq_bool_iff.
Qed.

Lemma same_key_sym r s : same_key r s = same_key s r.
Proof.
  unfold same_key. now rewrite cell_eqb_sym, Qeq_bool_comm.
Qed.

Lemma same_key_trans r s t :
  same_key r s = true -> same_key s t = true -> same_key r t = true.
Proof.
  rewrite !same_key_iff. intros [V1 A1] [V2 A2]. split.
  - eauto using cell_eqb_trans.
  - now rewrite A1.
Qed.

(** A line that is not in its own group (its vendor is missing) has an
    empty group. *)
Lemma same_key_self r s : same_key r r = false -> same_key r s = false.
Proof.
  unfold same_key. rewrite Qeq_bool_refl, andb_true_r. intros H.
  destruct (cell_eqb (vendor_name r) (vendor_name s)) eqn:E; [|reflexivity].
  apply cell_eqb_refl_l in E. congruence.
Qed.

(** Lines with the same key have the same group. *)
Lemma group_of_same_key df r s :
  same_key r s = true -> group_of r df = group_of s df.
Proof.
  intros K. apply filter_ext. intros t.
  destruct (same_key s t) eqn:F.
  - eauto using same_key_trans.
  - destruct (same_key r t) eqn:G; [|reflexivity].
    rewrite <- F. symmetry. apply same_key_trans with r; [|assumption].
    now rewrite same_key_sym.
Qed.

Lemma existsb_filter {A} (f : A -> bool) l :
  existsb f l = (1 <=? List.length (filter f l))%nat.
Proof.
  induction l as [|x l IH]; simpl; [reflexivity|].
  destruct (f x); simpl; [reflexivity|assumption].
Qed.

Lemma filter_nothing {A} (f : A -> bool) l :
  (forall x, f x = false) -> filter f l = [].
Proof.
  intros H. induction l as [|x l IH]; simpl; [reflexivity|].
  now rewrite H.
Qed.

Lemma duplicated_from_spec before df :
  duplicated_from before df = map (in_group_of_two (before ++ df)) df.
Proof.
  revert before. induction df as [|r after IH]; intros before; simpl;
    [reflexivity|].
  f_equal.
  - unfold in_group_of_two, group_of. rewrite filter_app. simpl.
    destruct (same_key r r) eqn:E.
    + rewrite !existsb_filter, length_app. simpl.
      destruct (List.length (filter (same_key r) before));
        destruct (List.length (filter (same_key r) after)); simpl;
        rewrite ?Nat.add_succ_r; reflexivity.
    + rewrite !filter_nothing by (intros; now apply same_key_self).
      rewrite !existsb_filter.
      now rewrite !filter_nothing by (intros; now apply same_key_self).
  - rewrite IH. apply map_ext. intros s.
    unfold in_group_of_two, group_of. simpl.
    rewrite !filter_app. simpl.
    destruct (same_key s r); simpl; rewrite !length_app; simpl;
      [|reflexivity].
    now rewrite Nat.add_succ_r.
Qed.

Lemma select_map (f : row -> bool) df : select (map f df) df = filter f df.
Proof.
  induction df as [|r df IH]; simpl; [reflexivity|].
  now rewrite IH.
Qed.

(** The mask of [duplicated], line by line. *)
Lemma duplicated_spec df : duplicated df = map (in_group_of_two df) df.
Proof. apply (duplicated_from_spec [] df). Qed.

Lemma find_duplicates_spec df :
  find_duplicates df = map mark_duplicate (filter (in_group_of_two df) df).
Proof.
  unfold find_duplicates. now rewrite duplicated_spec, select_map.
Qed.

(** A frame of three lines of one vendor, as in the example of the rule. *)
Definition invoice (vendor : string) (amount : Q) : row :=
  {| vendor_name := Str vendor; total_amount := amount;
     date := None; cells := [Str vendor; Num amount] |}.


End DuplicateFacts.

(** ** Rendering of numbers *)

Module FormatFacts.
Import Py.










(** The integer kept is a nearest one. *)
Lemma round_half_even_close q :
  (Qabs (inject_Z (round_half_even q) - q) <= 1 # 2)%Q.
Proof.
  unfold round_half_even.
  pose proof (Qfloor_le q) as Hl. pose proof (Qlt_floor q) as Hu.
  rewrite inject_Z_plus in Hu. change (inject_Z 1) with 1%Q in Hu.
  apply Qabs_Qle_condition.
  destruct (Qcompare (q - inject_Z (Qfloor q)) (1 # 2)) eqn:E.
  - apply Qeq_alt in E. destruct (Z.even (Qfloor q));
      rewrite ?inject_Z_plus; change (inject_Z 1) with 1%Q; split; lra.
  - apply Qlt_alt in E. split; lra.
  - apply Qgt_alt in E. rewrite inject_Z_plus.
    change (inject_Z 1) with 1%Q. split; lra.
Qed.

End FormatFacts.

(** ** Groups of a vendor and the spike rule *)

Module SpikeFacts.
Import Py Pandas AnomalyDetector CellFacts SortFacts FormatFacts DuplicateFacts.

(** The lines of a vendor, in the order of the frame. *)
Definition group_rows (vendor : cell) (df : list row) : list row :=
  filter (fun r => cell_eqb (vendor_name r) vendor) df.


Definition opt_list {A} (o : option A) : list A :=
  match o with Some a => [a] | None => [] end.



Lemma existsb_filter_keep {A} (P Q : A -> bool) l :
  (forall x, P x = true -> Q x = true) ->
  existsb P (filter Q l) = existsb P l.
Proof.
  intros H. induction l as [|x l IH]; simpl; [reflexivity|].
  destruct (Q x) eqn:E; simpl; rewrite IH; [reflexivity|].
  destruct (P x) eqn:F; [|reflexivity].
  rewrite (H x F) in E. discriminate.
Qed.




(** A vendor of the frame is among the keys. *)
Lemma unique_keeps v l :
  existsb (fun k => cell_eqb k v) (unique l)
  = existsb (fun k => cell_eqb k v) l.
Proof.
  induction l as [|c l IH]; simpl; [reflexivity|].
  destruct (cell_eqb c v) eqn:E; simpl; [reflexivity|].
  rewrite existsb_filter_keep; [exact IH|].
  intros d Hd. unfold same_value. destruct (cell_eqb c d) eqn:F.
  - rewrite (cell_eqb_trans _ _ _ F Hd) in E. discriminate.
  - destruct d; simpl in *; try discriminate; now rewrite andb_false_r.
Qed.

Lemma flat_map_map {A B C} (f : B -> list C) (g : A -> B) l :
  flat_map f (map g l) = flat_map (fun x => f (g x)) l.
Proof.
  induction l as [|x l IH]; simpl; [reflexivity|]. now rewrite IH.
Qed.



(** An entry of [spikes] is a line of its group. *)
Lemma spike_entry_in thr g a :
  spike_entry thr g = Some a -> In (entry a) g.
Proof.
  unfold spike_entry. destruct (1 <? List.length g)%nat; [|discriminate].
  destruct (rev g) as [|latest rest] eqn:E; [discriminate|].
  destruct (Qgtb _ _); [|discriminate].
  intros [= <-]. simpl. apply in_rev. rewrite E. now left.
Qed.



Lemma find_spikes_keys thr df :
  find_spikes thr df
  = flat_map (fun k => opt_list (spike_entry thr (group_rows k df)))
      (stable_sort cell_leb (unique (map vendor_name df))).
Proof.
  unfold find_spikes, groupby_vendor. rewrite flat_map_map.
  apply flat_map_ext. intros k. reflexivity.
Qed.




Lemma Qgtb_iff a b : Qgtb a b = true <-> (b < a)%Q.
Proof.
  unfold Qgtb. rewrite (Qgt_alt a b).
  destruct (Qcompare a b); split; congruence.
Qed.

End SpikeFacts.

Module SpikeRule.
Import Py Pandas AnomalyDetector CellFacts SortFacts FormatFacts DuplicateFacts.
Import SpikeFacts.



End SpikeRule.

(** ** Order of a vendor's lines before the spike analysis *)

Module OrderFacts.
Import Py Pandas AnomalyDetector CellFacts SortFacts SpikeFacts.












End OrderFacts.

Module OrderRule.
Import Py Pandas AnomalyDetector CellFacts SortFacts SpikeFacts OrderFacts.

Lemma filter_both {A} (P Q : A -> bool) l :
  filter P (filter Q l) = filter (fun x => Q x && P x) l.
Proof.
  induction l as [|x l IH]; simpl; [reflexivity|].
  destruct (Q x); simpl; rewrite IH; reflexivity.
Qed.

Lemma filter_perm {A} (P : A -> bool) l l' :
  Permutation l l' -> Permutation (filter P l) (filter P l').
Proof.
  induction 1 as [|x l l' H IH|x y l|l l' l'' H1 IH1 H2 IH2]; simpl.
  - constructor.
  - destruct (P x); [now constructor|assumption].
  - destruct (P x), (P y); try reflexivity. apply perm_swap.
  - now transitivity (filter P l').
Qed.



End OrderRule.

(** ** A detection run as a whole *)

Module DetectFacts.
Import Py Pandas AnomalyDetector CellFacts SortFacts SpikeFacts.

(** A line the cleaning drops: its amount is not a number or its vendor is
    missing. *)
Definition malformed (frame : DataFrame) (l : line) : bool :=
  isna (to_numeric (at_column frame "total_amount" l))
  || isna (at_column frame "vendor_name" l).

(** The frame without the lines the cleaning drops. *)
Definition without_malformed (frame : DataFrame) : DataFrame :=
  {| columns := columns frame;
     leading := leading frame;
     data := filter (fun l => negb (malformed frame l)) (data frame) |}.

Section Run.
Variable to_datetime : cell -> option Z.
Variable generate_summary : list anomaly -> res string.

(** What a run finds in a frame: the duplicates, then the spikes. *)
Definition anomalies_of (spike_threshold : Q) (frame : DataFrame) : list anomaly :=
  find_duplicates (clean frame)
  ++ find_spikes spike_threshold
       (sorted_by_vendor_date to_datetime (has_column frame "date") (clean frame)).

Definition detect := detect_financial_anomalies to_datetime generate_summary.

(** Detection never writes the master log and never raises. *)
Lemma detect_frame thr c d :
  LOG_FILE (disk (detect thr c d)) = LOG_FILE d
  /\ ended (detect thr c d) = Ret tt.
Proof.
  unfold detect, detect_financial_anomalies.
  destruct (LOG_FILE d) as [content|] eqn:L; simpl; [|now rewrite L].
  destruct (read_csv content) as [| |frame]; simpl; try now rewrite L.
  destruct (negb _); simpl; [now rewrite L|].
  destruct (find_duplicates _), (find_spikes _ _); simpl;
    try destruct (get_insights_from_gemini _ _ _); simpl; now rewrite ?L.
Qed.

(** The report after a run that could read the two columns: written anew
    when something was found, left as it was otherwise. *)
Lemma detect_report thr c d content frame :
  LOG_FILE d = Some content -> read_csv content = Frame frame ->
  has_column frame "total_amount" = true ->
  has_column frame "vendor_name" = true ->
  REPORT_FILE (disk (detect thr c d))
  = match anomalies_of thr frame with
    | [] => REPORT_FILE d
    | found => Some found
    end.
Proof.
  intros L R A V. unfold detect, detect_financial_anomalies, anomalies_of.
  rewrite L, R, A, V. simpl.
  destruct (find_duplicates _), (find_spikes _ _); simpl;
    try destruct (get_insights_from_gemini _ _ _); simpl;
    rewrite ?app_nil_r; reflexivity.
Qed.

(** A run that cannot read the two columns leaves the report as it was. *)
Lemma detect_report_unreadable thr c d :
  (forall content frame,
      LOG_FILE d = Some content -> read_csv content = Frame frame ->
      has_column frame "total_amount" && has_column frame "vendor_name" = false) ->
  REPORT_FILE (disk (detect thr c d)) = REPORT_FILE d.
Proof.
  intros H. unfold detect, detect_financial_anomalies.
  destruct (LOG_FILE d) as [content|]; simpl; [|reflexivity].
  destruct (read_csv content) as [| |frame] eqn:R; simpl; try reflexivity.
  now rewrite (H content frame eq_refl R).
Qed.

Lemma clean_line_without frame l :
  clean_line (without_malformed frame) l = clean_line frame l.
Proof. reflexivity. Qed.

Lemma clean_line_malformed frame l :
  malformed frame l = true -> clean_line frame l = [].
Proof.
  unfold malformed, clean_line.
  destruct (to_numeric _); simpl; try reflexivity.
  destruct (at_column frame "vendor_name" l); simpl; try discriminate.
  reflexivity.
Qed.

Lemma clean_without_malformed frame :
  clean (without_malformed frame) = clean frame.
Proof.
  unfold clean. simpl.
  induction (data frame) as [|l ls IH]; simpl; [reflexivity|].
  destruct (malformed frame l) eqn:M; simpl.
  - now rewrite (clean_line_malformed frame l M).
  - now rewrite clean_line_without, IH.
Qed.

(** A cleaned line is a line of the file that is not malformed. *)
Lemma clean_sound frame r :
  In r (clean frame) ->
  In (cells r) (data frame) /\ malformed frame (cells r) = false.
Proof.
  unfold clean. rewrite in_flat_map. intros (l & Hl & Hr).
  unfold clean_line in Hr. unfold malformed.
  destruct (to_numeric (at_column frame "total_amount" l)) eqn:T;
    simpl in Hr; try contradiction.
  destruct (at_column frame "vendor_name" l) eqn:V; simpl in Hr;
    try contradiction; destruct Hr as [<-|[]]; simpl; now rewrite T, V.
Qed.

Lemma select_in mask df r : In r (select mask df) -> In r df.
Proof.
  revert df. induction mask as [|b mask IH]; intros [|s df]; simpl;
    try contradiction.
  destruct b; simpl; intuition.
Qed.

(** Every entry of the two passes is a cleaned line (with its date
    converted, for a spike of a frame with dates). *)
Lemma anomalies_sound thr frame a :
  In a (anomalies_of thr frame) ->
  exists r, In r (clean frame) /\ cells (entry a) = cells r
            /\ vendor_name (entry a) = vendor_name r
            /\ total_amount (entry a) = total_amount r.
Proof.
  unfold anomalies_of. rewrite in_app_iff. intros [H|H].
  - unfold find_duplicates in H. apply in_map_iff in H.
    destruct H as (r & <- & Hr). apply select_in in Hr. now exists r.
  - unfold find_spikes in H. apply in_flat_map in H.
    destruct H as ([v g] & Hg & Ha). simpl in Ha.
    destruct (spike_entry thr g) as [b|] eqn:E; [|contradiction].
    destruct Ha as [<-|[]]. apply spike_entry_in in E.
    unfold groupby_vendor in Hg. apply in_map_iff in Hg.
    destruct Hg as (k & [= <- <-] & _). apply filter_In in E.
    destruct E as [E _]. unfold sorted_by_vendor_date in E.
    destruct (has_column frame "date"); [|now exists (entry b)].
    apply (Permutation_in _ (stable_sort_perm row_leb _)) in E.
    apply in_map_iff in E. destruct E as (r & <- & Hr).
    now exists r.
Qed.

End Run.

(** A ledger of one vendor whose latest invoice is back to normal, next to
    the report of an earlier run that flagged the invoice before it. *)
Definition acme (file : string) (amount : Q) : line :=
  [Str file; Str "Acme"; Num amount].

Definition earlier_spike : anomaly :=
  {| entry := {| vendor_name := Str "Acme"; total_amount := 200;
                 date := None; cells := acme "c.pdf" 200 |};
     anomaly_type := "Price Spike (>20%)";
     details := Some "Amount 200.00 vs. Avg 105.00" |}.

Definition settled_ledger : Disk :=
  {| LOG_FILE := Some [[Str "source_file"; Str "vendor_name"; Str "total_amount"];
                       acme "a.pdf" 100; acme "b.pdf" 110;
                       acme "c.pdf" 200; acme "d.pdf" 105];
     REPORT_FILE := Some [earlier_spike] |}.

(** C4, on the code.  After the first three invoices the run reports the
    spike; after the fourth it finds nothing, prints so and returns without
    raising, and the report on disk still holds the spike of the run before:
    it is not replaced by an empty report. *)
Lemma stale_report_survives :
  forall (to_datetime : cell -> option Z)
         (generate_summary : list anomaly -> res string) (c : Credentials),
    let before :=
      {| LOG_FILE := option_map (@removelast line) (LOG_FILE settled_ledger);
         REPORT_FILE := None |} in
    REPORT_FILE (disk (detect to_datetime generate_summary
                         default_spike_threshold c before))
    = Some [earlier_spike]
    /\ ended (detect to_datetime generate_summary
                default_spike_threshold c settled_ledger) = Ret tt
    /\ In NoAnomaliesDetected
         (printed (detect to_datetime generate_summary
                     default_spike_threshold c settled_ledger))
    /\ REPORT_FILE (disk (detect to_datetime generate_summary
                            default_spike_threshold c settled_ledger))
       = Some [earlier_spike].
Proof.
  intros to_datetime generate_summary c before.
  split; [|split; [reflexivity|split; [|reflexivity]]].
  - unfold detect, detect_financial_anomalies. simpl.
    now destruct (get_insights_from_gemini _ _ _).
  - simpl. auto.
Qed.

End DetectFacts.

Module ExclusionRule.
Import Py Pandas AnomalyDetector DetectFacts.

(** C6.  Lines whose [total_amount] does not coerce to a number or whose
    [vendor_name] is missing take no part in the analysis and stay in the
    ledger: a detection run leaves the master log as it found it; the
    duplicate pass and the spike pass give what they would give on the
    ledger without these lines; no entry of either pass is such a line; and
    the report a run writes consists of these entries. *)
Theorem malformed_lines_excluded_not_deleted :
  forall (to_datetime : cell -> option Z)
         (generate_summary : list anomaly -> res string)
         (spike_threshold : Q) (c : Credentials) (d : Disk),
    let run := detect to_datetime generate_summary spike_threshold c d in
    LOG_FILE (disk run) = LOG_FILE d
    /\ (forall frame,
          clean (without_malformed frame) = clean frame
          /\ find_duplicates (clean (without_malformed frame))
             = find_duplicates (clean frame)
          /\ find_spikes spike_threshold
               (sorted_by_vendor_date to_datetime
                  (has_column (without_malformed frame) "date")
                  (clean (without_malformed frame)))
             = find_spikes spike_threshold
                 (sorted_by_vendor_date to_datetime
                    (has_column frame "date") (clean frame)))
    /\ (forall frame a,
          In a (find_duplicates (clean frame))
          \/ In a (find_spikes spike_threshold
                     (sorted_by_vendor_date to_datetime
                        (has_column frame "date") (clean frame))) ->
          In (cells (entry a)) (data frame)
          /\ malformed frame (cells (entry a)) = false)
    /\ (forall content frame,
          LOG_FILE d = Some content -> read_csv content = Frame frame ->
          REPORT_FILE (disk run) = REPORT_FILE d
          \/ REPORT_FILE (disk run)
             = Some (find_duplicates (clean frame)
                     ++ find_spikes spike_threshold
                          (sorted_by_vendor_date to_datetime
                             (has_column frame "date") (clean frame)))).
Proof.
  intros to_datetime generate_summary thr c d run.
  split; [apply detect_frame|]. split; [|split].
  - intros frame. rewrite clean_without_malformed. auto.
  - intros frame a H.
    destruct (anomalies_sound to_datetime thr frame a) as (r & Hr & E & _).
    { unfold anomalies_of. apply in_or_app. exact H. }
    rewrite E. now apply clean_sound.
  - intros content frame L R. subst run.
    destruct (has_column frame "total_amount" && has_column frame "vendor_name")
      eqn:Cols.
    + apply andb_true_iff in Cols. destruct Cols as [A V].
      rewrite (detect_report to_datetime generate_summary thr c d content
                 frame L R A V).
      fold (anomalies_of to_datetime thr frame).
      destruct (anomalies_of to_datetime thr frame); auto.
    + left. apply detect_report_unreadable.
      intros content' frame' L' R'. congruence.
Qed.

(** A ledger with two invoices of the same vendor and amount, a line whose
    amount is not a number and a line without a vendor. *)
Definition mixed_ledger : Disk :=
  {| LOG_FILE := Some [[Str "source_file"; Str "vendor_name"; Str "total_amount"];
                       [Str "a.pdf"; Str "Acme"; Num 500];
                       [Str "b.pdf"; Str "Acme"; Num 500];
                       [Str "c.pdf"; Str "Acme"; Str "five hundred"];
                       [Str "d.pdf"; NaN; Num 500]];
     REPORT_FILE := None |}.

Definition acme_500 (file : string) : row :=
  {| vendor_name := Str "Acme"; total_amount := 500; date := None;
     cells := [Str file; Str "Acme"; Num 500] |}.

Lemma malformed_lines_excluded_not_deleted_witness :
  let run :=
    detect (fun _ => None) (fun _ => Ret "summary") default_spike_threshold
      {| st_secrets := SecretsRaise; environ := None |} mixed_ledger in
  LOG_FILE (disk run) = LOG_FILE mixed_ledger
  /\ REPORT_FILE (disk run)
     = Some [mark_duplicate (acme_500 "a.pdf"); mark_duplicate (acme_500 "b.pdf")].
Proof.
  split; [|reflexivity].
  exact (proj1 (malformed_lines_excluded_not_deleted
                  (fun _ => None) (fun _ => Ret "summary")
                  default_spike_threshold
                  {| st_secrets := SecretsRaise; environ := None |}
                  mixed_ledger)).
Defined.

End ExclusionRule.

(** ** The ingestion loop *)

Module LoopFacts.
Import Py Pandas Dict ExtractionEngine BulkProcessor.

(** The file an event is about, for the events of the loop. *)
Definition subject (e : event) : option string :=
  match e with
  | ProcessingNewFile f | WarningNoText f | ErrorFromGemini f _
  | StagedForSaving f | CriticalError f _ => Some f
  | _ => None
  end.

(** The events that report a document as skipped. *)
Definition is_failure (e : event) : bool :=
  match e with
  | WarningNoText _ | ErrorFromGemini _ _ | CriticalError _ _ => true
  | _ => false
  end.

Definition empty_loop : Loop := {| new_records := []; out := [] |}.

Section Run.
Variable fitz_open : string -> res (list (res text)).
Variable generate_content : text -> response.
Variable json_loads : text -> res json.

Definition body := loop_body fitz_open generate_content json_loads.
Definition run := bulk_process_invoices fitz_open generate_content json_loads.

(** What the loop body does with a file it does not skip, started from
    nothing: what it prints and what it stages. *)
Definition attempt (filename : string) : Loop := body [] empty_loop filename.

(** The records and the events of a whole loop. *)
Definition staged (processed_files : list cell) (pdfs : list string) : list dict :=
  flat_map (fun f => if in_processed f processed_files then []
                     else new_records (attempt f)) pdfs.

Definition said (processed_files : list cell) (pdfs : list string) : list event :=
  flat_map (fun f => if in_processed f processed_files then []
                     else out (attempt f)) pdfs.

Lemma loop_eq (a b : Loop) :
  new_records a = new_records b -> out a = out b -> a = b.
Proof. destruct a, b; simpl; congruence. Qed.

(** Two states of the loop that differ by the bracketing of their lists. *)
Ltac same_loop :=
  apply loop_eq; simpl; now rewrite ?app_nil_r, <- ?app_assoc.

(** The loop body only adds to the state, and what it adds depends on the
    file alone. *)
Lemma body_adds processed_files st filename :
  body processed_files st filename
  = if in_processed filename processed_files then st
    else {| new_records := new_records st ++ new_records (attempt filename);
            out := out st ++ out (attempt filename) |}.
Proof.
  unfold attempt, body, loop_body. simpl.
  destruct (in_processed filename processed_files); [reflexivity|].
  destruct (extract_text_from_pdf fitz_open filename) as [raw_text|e];
    [|same_loop].
  destruct raw_text as [|ch raw_text]; [same_loop|].
  destruct (strip (ch :: raw_text)); [same_loop|].
  destruct (analyze_with_gemini _ _ _) as [events [[d|]|e]];
    try destruct (has "error" d); same_loop.
Qed.

Lemma loop_adds processed_files pdfs st :
  fold_left (body processed_files) pdfs st
  = {| new_records := new_records st ++ staged processed_files pdfs;
       out := out st ++ said processed_files pdfs |}.
Proof.
  revert st. induction pdfs as [|f pdfs IH]; intros st; simpl.
  - same_loop.
  - rewrite IH, body_adds.
    destruct (in_processed f processed_files); simpl; [reflexivity|].
    same_loop.
Qed.

(** An attempt stages at most one record: the object the adapter returned,
    without an ["error"] key, stamped with the name of the file.  When it
    stages none it prints exactly one failure about the file. *)
Lemma attempt_cases filename :
  (exists raw_text d events,
      extract_text_from_pdf fitz_open filename = Ret raw_text
      /\ analyze_with_gemini generate_content json_loads raw_text
         = (events, Ret (JDict d))
      /\ has "error" d = false
      /\ new_records (attempt filename) = [set "source_file" (Str filename) d]
      /\ filter is_failure (out (attempt filename)) = [])
  \/ (new_records (attempt filename) = []
      /\ exists e, filter is_failure (out (attempt filename)) = [e]
                   /\ subject e = Some filename).
Proof.
  unfold attempt, body, loop_body. simpl.
  destruct (extract_text_from_pdf fitz_open filename) as [raw_text|e] eqn:X;
    [|right; simpl; eauto].
  destruct raw_text as [|ch raw_text]; [right; simpl; eauto|].
  destruct (strip (ch :: raw_text)) eqn:S; [right; simpl; eauto|].
  destruct (analyze_with_gemini _ _ _) as [events result] eqn:G.
  assert (F : filter is_failure events = []).
  { unfold analyze_with_gemini in G.
    destruct (generate_content _); try (injection G as <- _; reflexivity).
    destruct (json_loads _); injection G as <- _; reflexivity. }
  destruct result as [[d|]|e];
    [destruct (has "error" d) eqn:He|..].
  - right. simpl. rewrite filter_app, F. simpl. eauto.
  - left. exists (ch :: raw_text), d, events. simpl.
    rewrite filter_app, F. simpl. auto.
  - right. simpl. rewrite filter_app, F. simpl. eauto.
  - right. simpl. rewrite filter_app, F. simpl. eauto.
Qed.

(** Every attempt announces its file first, and every event of the loop
    that names a file names the file being attempted. *)
Lemma attempt_events filename :
  (exists rest, out (attempt filename) = ProcessingNewFile filename :: rest)
  /\ forall e f, In e (out (attempt filename)) -> subject e = Some f ->
                 f = filename.
Proof.
  unfold attempt, body, loop_body. simpl.
  destruct (extract_text_from_pdf fitz_open filename) as [raw_text|e];
    [|split; [simpl; eauto|]; simpl; intros e' f [<-|[<-|[]]] [= <-]; auto].
  assert (D : forall (last : event) e f,
             subject last = Some filename ->
             In e [ProcessingNewFile filename; last] ->
             subject e = Some f -> f = filename).
  { intros last e f Hl [<-|[<-|[]]] H; simpl in *; congruence. }
  destruct raw_text as [|ch raw_text];
    [split; [simpl; eauto|]; intros e f; now apply D|].
  destruct (strip (ch :: raw_text));
    [split; [simpl; eauto|]; intros e f; now apply D|].
  destruct (analyze_with_gemini _ _ _) as [events result] eqn:G.
  assert (F : forall e, In e events -> subject e = None).
  { unfold analyze_with_gemini in G.
    destruct (generate_content _) as [x|x|answer].
    - injection G as <- _. intros e [<-|[<-|[]]]; reflexivity.
    - injection G as <- _. intros e [<-|[]]; reflexivity.
    - destruct (json_loads _) as [v|x]; injection G as <- _.
      + intros e [].
      + intros e [<-|[<-|[]]]; reflexivity. }
  assert (D' : forall (last : event) e f,
             subject last = Some filename ->
             In e (ProcessingNewFile filename :: events ++ [last]) ->
             subject e = Some f -> f = filename).
  { intros last e f Hl [<-|H] Hs; [simpl in Hs; congruence|].
    apply in_app_iff in H. destruct H as [H|[<-|[]]]; [|congruence].
    rewrite (F e H) in Hs. discriminate. }
  destruct result as [[d|]|e]; [destruct (has "error" d)|..];
    (split; [simpl; eauto|]); intros e' f; now apply D'.
Qed.

End Run.

End LoopFacts.

(** ** An ingestion run as a whole *)

Module RunFacts.
Import Py Pandas Dict ExtractionEngine BulkProcessor LoopFacts.

(** [header = not os.path.exists(LOG_FILE)] *)
Definition header_needed (log : option (list line)) : bool :=
  match log with None => true | Some _ => false end.

(** The files after a run that staged [records]. *)
Definition saved (d : Disk) (records : list dict) : Disk :=
  let cols := reorder (frame_labels records) in
  {| LOG_FILE := Some (to_csv_append (LOG_FILE d) cols
                         (map (record_line cols) records)
                         (header_needed (LOG_FILE d)));
     pdf_files := pdf_files d |}.

Section Run.
Variable fitz_open : string -> res (list (res text)).
Variable generate_content : text -> response.
Variable json_loads : text -> res json.

Local Abbreviation run := (run fitz_open generate_content json_loads).
Local Abbreviation attempt := (attempt fitz_open generate_content json_loads).
Local Abbreviation staged := (staged fitz_open generate_content json_loads).
Local Abbreviation said := (said fitz_open generate_content json_loads).

(** A document that is attempted and gives no record. *)
Definition failed (processed_files : list cell) (f : string) : bool :=
  negb (in_processed f processed_files)
  && match new_records (attempt f) with [] => true | _ :: _ => false end.

Lemma run_without_key c d :
  truthy (resolve_api_key c) = false ->
  run c d = {| ended := Ret tt; disk := d;
               printed := [StartingBulkProcessing; ErrorApiKeyNotFound] |}.
Proof.
  intros H. unfold LoopFacts.run, bulk_process_invoices. now rewrite H.
Qed.

Lemma run_unreadable c d e :
  truthy (resolve_api_key c) = true ->
  get_processed_files (LOG_FILE d) = Raise e ->
  run c d = {| ended := Raise e; disk := d;
               printed := [StartingBulkProcessing] |}.
Proof.
  intros H G. unfold LoopFacts.run, bulk_process_invoices. now rewrite H, G.
Qed.

Lemma run_readable c d processed_files :
  truthy (resolve_api_key c) = true ->
  get_processed_files (LOG_FILE d) = Ret processed_files ->
  let opening := [StartingBulkProcessing;
                  FoundPreviouslyProcessed (List.length processed_files)]
                 ++ said processed_files (pdf_files d) in
  run c d
  = match staged processed_files (pdf_files d) with
    | [] => {| ended := Ret tt; disk := d;
               printed := opening ++ [NoNewInvoiceFiles; BulkProcessingComplete] |}
    | (_ :: _) as records =>
        {| ended := Ret tt; disk := saved d records;
           printed := opening ++ [FoundNewRecords (List.length records);
                                  AppendedNewData; BulkProcessingComplete] |}
    end.
Proof.
  intros H G. unfold LoopFacts.run, bulk_process_invoices. rewrite H, G. simpl.
  rewrite (loop_adds fitz_open generate_content json_loads). simpl.
  destruct (staged processed_files (pdf_files d)) eqn:S; [reflexivity|].
  unfold saved, header_needed. destruct (LOG_FILE d); reflexivity.
Qed.

(** A run ends by returning [None], or by raising what reading the master
    log raised. *)
Lemma run_ends c d :
  ended (run c d) = Ret tt
  \/ exists e, ended (run c d) = Raise e
               /\ get_processed_files (LOG_FILE d) = Raise e.
Proof.
  destruct (truthy (resolve_api_key c)) eqn:K;
    [|left; now rewrite run_without_key].
  destruct (get_processed_files (LOG_FILE d)) as [P|e] eqn:G.
  - left. rewrite (run_readable c d P K G).
    now destruct (staged _ _).
  - right. exists e. now rewrite (run_unreadable c d e K G).
Qed.

(** One failure is printed for each failed document, and nothing else
    counts as a failure. *)
Lemma said_failures processed_files pdfs :
  List.length (filter is_failure (said processed_files pdfs))
  = List.length (filter (failed processed_files) pdfs).
Proof.
  induction pdfs as [|f pdfs IH]; simpl; [reflexivity|].
  unfold failed at 1.
  destruct (in_processed f processed_files); simpl; [exact IH|].
  rewrite filter_app, length_app, IH.
  destruct (attempt_cases fitz_open generate_content json_loads f)
    as [(raw & obj & events & _ & _ & _ & -> & ->)|(-> & e & -> & _)];
    reflexivity.
Qed.



(** A staged record is the object the adapter returned for a document of
    the directory, complete and stamped with the document's name. *)
Lemma staged_complete processed_files pdfs record :
  In record (staged processed_files pdfs) ->
  exists f raw_text obj events,
    In f pdfs /\ in_processed f processed_files = false
    /\ extract_text_from_pdf fitz_open f = Ret raw_text
    /\ analyze_with_gemini generate_content json_loads raw_text
       = (events, Ret (JDict obj))
    /\ has "error" obj = false
    /\ record = set "source_file" (Str f) obj.
Proof.
  unfold LoopFacts.staged. rewrite in_flat_map. intros (f & Hf & Hr).
  destruct (in_processed f processed_files) eqn:I; [contradiction|].
  destruct (attempt_cases fitz_open generate_content json_loads f)
    as [(raw & obj & events & X & G & E & R & _)|(R & _)];
    rewrite R in Hr; [|contradiction].
  destruct Hr as [<-|[]]. exists f, raw, obj, events. repeat split; auto.
Qed.

End Run.

(** Sample surroundings: a directory reader that fails on one name and
    finds only white space in another, a model that always answers, and a
    parser that always finds the same invoice. *)
Definition sample_fitz (path : string) : res (list (res text)) :=
  if String.eqb path "broken.pdf" then Raise "cannot open broken document"
  else if String.eqb path "scan.pdf" then Ret [Ret [32; 10]%N]
  else Ret [Ret [73; 78; 86]%N].

Definition sample_model (_ : text) : response := ResponseText [123; 125]%N.

Definition sample_loads (_ : text) : res json :=
  Ret (JDict [("vendor_name", Str "Acme"); ("total_amount", Num 100)]).

Definition sample_run := run sample_fitz sample_model sample_loads.

Definition with_key : Credentials :=
  {| st_secrets := SecretsRaise; environ := Some "secret" |}.

Definition without_key : Credentials :=
  {| st_secrets := SecretsGet None; environ := None |}.

Definition sample_header : line :=
  [Str "source_file"; Str "vendor_name"; Str "total_amount"].

Definition sample_line (file : string) : line :=
  [Str file; Str "Acme"; Num 100].

End RunFacts.

(** ** Credentials and the value a run returns *)

Module ReturnRule.
Import Py Pandas Dict ExtractionEngine BulkProcessor LoopFacts RunFacts.

(** What Streamlit's secrets give for the key, [None] when the lookup
    raises. *)
Definition from_secrets (c : Credentials) : option string :=
  match st_secrets c with
  | SecretsGet v => v
  | SecretsRaise => None
  end.

Lemma resolve_api_key_truthy c :
  truthy (resolve_api_key c)
  = truthy (from_secrets c) || truthy (environ c).
Proof.
  unfold resolve_api_key, from_secrets.
  destruct (truthy match st_secrets c with
                   | SecretsRaise => None
                   | SecretsGet v => v
                   end) eqn:E; [now rewrite E|reflexivity].
Qed.

Definition inbox (names : list string) : Disk :=
  {| LOG_FILE := None; pdf_files := names |}.

(** C5 (as amended).  When neither the secrets store nor the environment
    gives a key, ingestion stops before it reads the master log or touches a
    document: with any adapters the run prints the start line and the
    configuration error and nothing else, leaves the files as they are, and
    returns [None] without raising. *)
Theorem missing_credential_aborts :
  forall (fitz_open : string -> res (list (res text)))
         (generate_content : text -> response)
         (json_loads : text -> res json)
         (c : Credentials) (d : Disk),
    truthy (from_secrets c) = false ->
    truthy (environ c) = false ->
    run fitz_open generate_content json_loads c d
    = {| ended := Ret tt;
         disk := d;
         printed := [StartingBulkProcessing; ErrorApiKeyNotFound] |}.
Proof.
  intros fitz_open generate_content json_loads c d S E.
  apply run_without_key. now rewrite resolve_api_key_truthy, S, E.
Qed.

Lemma missing_credential_aborts_witness :
  truthy (from_secrets without_key) = false
  /\ truthy (environ without_key) = false
  /\ sample_run without_key (inbox ["a.pdf"; "broken.pdf"])
     = {| ended := Ret tt;
          disk := inbox ["a.pdf"; "broken.pdf"];
          printed := [StartingBulkProcessing; ErrorApiKeyNotFound] |}.
Proof.
  split; [reflexivity|]. split; [reflexivity|].
  exact (missing_credential_aborts sample_fitz sample_model sample_loads
           without_key (inbox ["a.pdf"; "broken.pdf"]) eq_refl eq_refl).
Defined.

(** The value returned when the credential is missing is the value a run
    returns that found the key and appended a record: it indicates
    nothing. *)
Lemma missing_credential_returns_like_success :
  ended (sample_run without_key (inbox ["a.pdf"]))
  = ended (sample_run with_key (inbox ["a.pdf"]))
  /\ LOG_FILE (disk (sample_run with_key (inbox ["a.pdf"])))
     = Some [sample_header; sample_line "a.pdf"]
  /\ LOG_FILE (disk (sample_run without_key (inbox ["a.pdf"]))) = None.
Proof. repeat split. Qed.

(** C8 (as amended).  Ingestion returns no counts: a run that returns
    returns [None], and it raises only what reading the master log raised.
    The number of records appended is printed, not returned: when records
    were staged the run prints their number and appends that many lines
    (after the header, for a new file); when none were, it prints that
    there is nothing new and leaves the files alone.  Failures are not
    counted anywhere: each failed document prints one line. *)
Theorem ingestion_returns_none_and_prints :
  forall (fitz_open : string -> res (list (res text)))
         (generate_content : text -> response)
         (json_loads : text -> res json)
         (c : Credentials) (d : Disk),
    let result := run fitz_open generate_content json_loads c d in
    (ended result = Ret tt
     \/ exists e, ended result = Raise e
                  /\ get_processed_files (LOG_FILE d) = Raise e)
    /\ (forall processed_files,
          truthy (resolve_api_key c) = true ->
          get_processed_files (LOG_FILE d) = Ret processed_files ->
          let records :=
            staged fitz_open generate_content json_loads
              processed_files (pdf_files d) in
          ended result = Ret tt
          /\ (records = [] ->
              disk result = d /\ In NoNewInvoiceFiles (printed result))
          /\ (records <> [] ->
              In (FoundNewRecords (List.length records)) (printed result)
              /\ exists cols rows,
                   List.length rows = List.length records
                   /\ LOG_FILE (disk result)
                      = Some (match LOG_FILE d with
                              | Some old => old ++ rows
                              | None => map Str cols :: rows
                              end))
          /\ List.length (filter is_failure (printed result))
             = List.length
                 (filter (failed fitz_open generate_content json_loads
                            processed_files) (pdf_files d))).
Proof.
  intros fitz_open generate_content json_loads c d result.
  split; [apply run_ends|].
  intros P K G records. subst result records.
  rewrite (run_readable fitz_open generate_content json_loads c d P K G).
  assert (F : forall tail,
             filter is_failure tail = [] ->
             List.length
               (filter is_failure
                  (([StartingBulkProcessing;
                     FoundPreviouslyProcessed (List.length P)]
                    ++ said fitz_open generate_content json_loads P (pdf_files d))
                   ++ tail))
             = List.length
                 (filter (failed fitz_open generate_content json_loads P)
                    (pdf_files d))).
  { intros tail T. rewrite !filter_app, T, app_nil_r. simpl.
    apply said_failures. }
  destruct (staged fitz_open generate_content json_loads P (pdf_files d))
    as [|r rest] eqn:R; simpl.
  - split; [reflexivity|]. split; [|split; [congruence|now apply F]].
    intros _. split; [reflexivity|].
    right. right. apply in_or_app. right. now left.
  - split; [reflexivity|]. split; [discriminate|]. split; [|now apply F].
    intros _. split.
    + right. right. apply in_or_app. right. now left.
    + exists (reorder (frame_labels (r :: rest))),
             (map (record_line (reorder (frame_labels (r :: rest))))
                (r :: rest)).
      split; [now rewrite length_map|].
      unfold to_csv_append, header_needed. now destruct (LOG_FILE d).
Qed.

Lemma ingestion_returns_none_and_prints_witness :
  let result := sample_run with_key (inbox ["a.pdf"; "broken.pdf"; "scan.pdf"]) in
  truthy (resolve_api_key with_key) = true
  /\ get_processed_files (LOG_FILE (inbox ["a.pdf"; "broken.pdf"; "scan.pdf"]))
     = Ret []
  /\ ended result = Ret tt
  /\ In (FoundNewRecords 1) (printed result)
  /\ List.length (filter is_failure (printed result)) = 2%nat.
Proof.
  split; [reflexivity|]. split; [reflexivity|].
  destruct (proj2 (ingestion_returns_none_and_prints sample_fitz sample_model
                     sample_loads with_key
                     (inbox ["a.pdf"; "broken.pdf"; "scan.pdf"]))
              [] eq_refl eq_refl) as (E & _ & A & F).
  split; [exact E|]. split; [|exact F].
  refine (proj1 (A _)). discriminate.
Defined.

(** A run that appends one record and has no failure and a run that
    appends none and has one failure return the same value. *)
Lemma counts_are_not_returned :
  ended (sample_run with_key (inbox ["a.pdf"]))
  = ended (sample_run with_key (inbox ["broken.pdf"]))
  /\ LOG_FILE (disk (sample_run with_key (inbox ["a.pdf"])))
     = Some [sample_header; sample_line "a.pdf"]
  /\ filter is_failure (printed (sample_run with_key (inbox ["a.pdf"]))) = []
  /\ LOG_FILE (disk (sample_run with_key (inbox ["broken.pdf"]))) = None
  /\ filter is_failure (printed (sample_run with_key (inbox ["broken.pdf"])))
     = [CriticalError "broken.pdf" "cannot open broken document"].
Proof. repeat split. Qed.

End ReturnRule.

(** ** Failures of single documents *)

Module IsolationRule.
Import Py Pandas Dict ExtractionEngine BulkProcessor LoopFacts RunFacts.

Section Run.
Variable fitz_open : string -> res (list (res text)).
Variable generate_content : text -> response.
Variable json_loads : text -> res json.

Local Abbreviation attempt := (attempt fitz_open generate_content json_loads).


Lemma no_text f raw_text :
  extract_text_from_pdf fitz_open f = Ret raw_text ->
  strip raw_text = [] ->
  attempt f = {| new_records := [];
                 out := [ProcessingNewFile f; WarningNoText f] |}.
Proof.
  intros X S. unfold LoopFacts.attempt, body, loop_body. simpl.
  rewrite X. destruct raw_text; [reflexivity|]. now rewrite S.
Qed.


End Run.


Definition mixed_inbox : Disk :=
  {| LOG_FILE := None;
     pdf_files := ["a.pdf"; "broken.pdf"; "scan.pdf"; "b.pdf"] |}.


(** C10.  When the master log exists and can be read but has no
    [source_file] column, no file name counts as processed: a run with a key
    attempts every PDF of the directory, whatever the log already holds, and
    appends the record of each one that gives a record to the end of the
    log, without a header. *)
Theorem log_without_source_file_column :
  forall (fitz_open : string -> res (list (res text)))
         (generate_content : text -> response)
         (json_loads : text -> res json)
         (c : Credentials) (d : Disk) (content : list line) (frame : DataFrame),
    LOG_FILE d = Some content ->
    read_csv content = Frame frame ->
    has_column frame "source_file" = false ->
    truthy (resolve_api_key c) = true ->
    let run := run fitz_open generate_content json_loads in
    let attempt := attempt fitz_open generate_content json_loads in
    let records := flat_map (fun f => new_records (attempt f)) (pdf_files d) in
    let cols := reorder (frame_labels records) in
    get_processed_files (LOG_FILE d) = Ret []
    /\ ended (run c d) = Ret tt
    /\ (forall f, In f (pdf_files d) ->
          In (ProcessingNewFile f) (printed (run c d)))
    /\ LOG_FILE (disk (run c d))
       = Some (content ++ map (record_line cols) records)
    /\ (forall f record,
          In f (pdf_files d) -> In record (new_records (attempt f)) ->
          In (record_line cols record) (map (record_line cols) records)).
Proof.
  intros fitz_open generate_content json_loads c d content frame L R H K
    run attempt records cols.
  assert (G : get_processed_files (LOG_FILE d) = Ret []).
  { rewrite L. unfold get_processed_files. now rewrite R, H. }
  pose proof (run_readable fitz_open generate_content json_loads c d [] K G)
    as E. simpl in E.
  assert (S : staged fitz_open generate_content json_loads [] (pdf_files d)
              = records) by reflexivity.
  rewrite S in E.
  split; [exact G|]. split; [subst run; rewrite E; now destruct records|].
  split; [|split].
  - intros f Hf. subst run.
    assert (I : In (ProcessingNewFile f)
                  (said fitz_open generate_content json_loads [] (pdf_files d))).
    { unfold said. apply in_flat_map. exists f. split; [assumption|]. simpl.
      destruct (attempt_events fitz_open generate_content json_loads f)
        as [(rest & ->) _]. now left. }
    rewrite E. destruct records; simpl; right; right; apply in_or_app;
      now left.
  - subst run. rewrite E. destruct records as [|r rest] eqn:Q; simpl.
    + now rewrite L, app_nil_r.
    + unfold to_csv_append, header_needed. now rewrite L.
  - intros f record Hf Hr. apply in_map. subst records.
    apply in_flat_map. now exists f.
Qed.

Definition headless_log : Disk :=
  {| LOG_FILE := Some [[Str "file"; Str "vendor_name"; Str "total_amount"];
                       sample_line "a.pdf"];
     pdf_files := ["a.pdf"] |}.

Lemma log_without_source_file_column_witness :
  LOG_FILE headless_log
  = Some [[Str "file"; Str "vendor_name"; Str "total_amount"];
          sample_line "a.pdf"]
  /\ read_csv [[Str "file"; Str "vendor_name"; Str "total_amount"];
               sample_line "a.pdf"]
     = Frame {| columns := [Str "file"; Str "vendor_name"; Str "total_amount"];
                leading := 0;
                data := [sample_line "a.pdf"] |}
  /\ truthy (resolve_api_key with_key) = true
  /\ get_processed_files (LOG_FILE headless_log) = Ret []
  /\ LOG_FILE (disk (sample_run with_key headless_log))
     = Some [[Str "file"; Str "vendor_name"; Str "total_amount"];
             sample_line "a.pdf"; sample_line "a.pdf"].
Proof.
  split; [reflexivity|]. split; [reflexivity|]. split; [reflexivity|].
  destruct (log_without_source_file_column sample_fitz sample_model
              sample_loads with_key headless_log _ _
              eq_refl eq_refl eq_refl eq_refl)
    as (G & _ & _ & W & _).
  split; [exact G|exact W].
Defined.

End IsolationRule.

(** ** Running ingestion twice *)

Module IdempotenceFacts.
Import Py Pandas Dict ExtractionEngine BulkProcessor LoopFacts RunFacts.
Import CellFacts SpikeFacts.

(** A master log the script can take up again: no file yet, or a header
    that starts with [source_file] followed by lines that are not blank and
    not longer than the header. *)
Definition ledger_ready (log : option (list line)) : bool :=
  match log with
  | None => true
  | Some [] => false
  | Some (header :: rows) =>
      cell_eqb (Str "source_file") (hd NaN header)
      && forallb (fun l => (1 <=? List.length l)%nat
                           && (List.length l <=? List.length header)%nat) rows
  end.

(** The names recorded in the first column of the lines. *)
Definition recorded (rows : list line) : list cell := map (hd NaN) rows.

Lemma existsb_same {A} (f g : A -> bool) l :
  (forall x, f x = g x) -> existsb f l = existsb g l.
Proof.
  intros H. induction l as [|x l IH]; simpl; [reflexivity|].
  now rewrite H, IH.
Qed.

Lemma in_processed_unique f l :
  in_processed f (unique l) = in_processed f l.
Proof.
  unfold in_processed.
  rewrite (existsb_same _ (fun k => cell_eqb k (Str f)))
    by (intros k; apply cell_eqb_sym).
  rewrite unique_keeps. apply existsb_same. intros k. apply cell_eqb_sym.
Qed.

(** A file without blank lines is read as it stands. *)
Lemma read_csv_no_blank content :
  filter (fun l => negb (is_blank_line l)) content = content ->
  read_csv content
  = match content with
    | [] => EmptyDataError
    | header :: [] =>
        Frame {| columns := header; leading := 0; data := [] |}
    | header :: (first :: rest) as rows =>
        let width := Nat.max (List.length header) (List.length first) in
        if forallb (fun l => (List.length l <=? width)%nat) rest
        then Frame {| columns := header;
                      leading := width - List.length header;
                      data := rows |}
        else ParserError
    end.
Proof. intros N. unfold read_csv. now rewrite N. Qed.

Lemma ready_read header rows :
  ledger_ready (Some (header :: rows)) = true ->
  read_csv (header :: rows)
  = Frame {| columns := header; leading := 0; data := rows |}
  /\ exists rest, header = Str "source_file" :: rest.
Proof.
  unfold ledger_ready. intros H. apply andb_true_iff in H.
  destruct H as [Hh Hr].
  destruct header as [|c rest]; [discriminate|].
  destruct c as [| |s]; try discriminate.
  change (String.eqb "source_file" s = true) in Hh.
  apply String.eqb_eq in Hh. subst s.
  split; [|now exists rest].
  set (header := Str "source_file" :: rest) in *.
  rewrite forallb_forall in Hr.
  assert (N : filter (fun l => negb (is_blank_line l)) (header :: rows)
              = header :: rows).
  { apply forallb_filter_id. apply forallb_forall. intros l [<-|Hl];
      [reflexivity|].
    specialize (Hr l Hl). now destruct l. }
  etransitivity; [exact (read_csv_no_blank _ N)|].
  destruct rows as [|first others]; [reflexivity|].
  assert (W : Nat.max (List.length header) (List.length first)
              = List.length header).
  { apply Nat.max_l. specialize (Hr first (or_introl eq_refl)).
    apply andb_true_iff in Hr. now apply Nat.leb_le. }
  assert (F : forallb (fun l => (List.length l <=? List.length header)%nat)
                others = true).
  { apply forallb_forall. intros l Hl. specialize (Hr l (or_intror Hl)).
    now apply andb_true_iff in Hr. }
  cbv zeta. now rewrite W, F, Nat.sub_diag.
Qed.

Lemma ready_processed header rows :
  ledger_ready (Some (header :: rows)) = true ->
  get_processed_files (Some (header :: rows)) = Ret (unique (recorded rows)).
Proof.
  intros H. destruct (ready_read header rows H) as [R [rest ->]].
  unfold get_processed_files. rewrite R.
  change (has_column _ "source_file") with true. cbv iota.
  do 2 f_equal. apply map_ext. intros l. now destruct l.
Qed.

(** The labels of a frame built from records hold every key of every
    record. *)
Lemma mem_app k l l' : mem k (l ++ l') = mem k l || mem k l'.
Proof. unfold mem. apply existsb_app. Qed.

Lemma add_labels_mem k ks labels :
  mem k (fold_left add_label ks labels) = mem k labels || mem k ks.
Proof.
  revert labels. induction ks as [|k' ks IH]; intros labels; simpl.
  - now rewrite orb_false_r.
  - rewrite IH. unfold add_label.
    destruct (mem k' labels) eqn:M.
    + destruct (String.eqb_spec k k') as [->|N]; simpl.
      * now rewrite M.
      * reflexivity.
    + rewrite mem_app. simpl. now rewrite orb_false_r, orb_assoc.
Qed.

Lemma frame_labels_from_mem k records labels :
  mem k (fold_left (fun labels d => fold_left add_label (keys d) labels)
           records labels)
  = mem k labels || existsb (fun d => mem k (keys d)) records.
Proof.
  revert labels. induction records as [|d records IH]; intros labels; simpl.
  - now rewrite orb_false_r.
  - now rewrite IH, add_labels_mem, orb_assoc.
Qed.

Lemma has_keys k d : has k d = mem k (keys d).
Proof.
  induction d as [|[k' v] d IH]; simpl; [reflexivity|]. now rewrite IH.
Qed.

Lemma has_set k v d : has k (set k v d) = true.
Proof.
  induction d as [|[k' v'] d IH]; simpl.
  - now rewrite String.eqb_refl.
  - destruct (String.eqb_spec k k') as [->|N]; simpl.
    + now rewrite String.eqb_refl.
    + rewrite IH. apply orb_true_r.
Qed.

Lemma get_set k v d : get k (set k v d) = Some v.
Proof.
  induction d as [|[k' v'] d IH]; simpl.
  - now rewrite String.eqb_refl.
  - destruct (String.eqb_spec k k') as [->|N]; simpl.
    + now rewrite String.eqb_refl.
    + destruct (String.eqb_spec k k'); [contradiction|exact IH].
Qed.

(** The columns of a frame of stamped records start with [source_file]. *)
Lemma reorder_stamped records :
  records <> [] ->
  (forall r, In r records -> has "source_file" r = true) ->
  exists rest, reorder (frame_labels records) = "source_file" :: rest.
Proof.
  intros N H. unfold reorder, frame_labels.
  rewrite frame_labels_from_mem. simpl.
  destruct records as [|r records]; [congruence|]. simpl.
  rewrite <- has_keys, (H r (or_introl eq_refl)). simpl. eauto.
Qed.

Lemma record_line_first rest r :
  hd NaN (record_line ("source_file" :: rest) r)
  = match get "source_file" r with Some v => v | None => NaN end.
Proof. reflexivity. Qed.

End IdempotenceFacts.

Module IdempotenceRule.
Import Py Pandas Dict ExtractionEngine BulkProcessor LoopFacts RunFacts.
Import CellFacts IdempotenceFacts.

Section Run.
Variable fitz_open : string -> res (list (res text)).
Variable generate_content : text -> response.
Variable json_loads : text -> res json.

Local Abbreviation run := (run fitz_open generate_content json_loads).
Local Abbreviation attempt := (attempt fitz_open generate_content json_loads).
Local Abbreviation staged := (staged fitz_open generate_content json_loads).
Local Abbreviation said := (said fitz_open generate_content json_loads).


(** A loop stages nothing when every document is either skipped or was
    attempted before with the same outcome and recorded if it gave a
    record. *)
Lemma restaged_nothing before after pdfs :
  (forall f r, In f pdfs -> in_processed f before = false ->
               In r (new_records (attempt f)) ->
               in_processed f after = true) ->
  (forall f, in_processed f before = true -> in_processed f after = true) ->
  staged after pdfs = [].
Proof.
  intros New Old. unfold LoopFacts.staged.
  induction pdfs as [|f pdfs IH]; simpl; [reflexivity|].
  rewrite IH by (intros g r Hg; apply New; now right).
  rewrite app_nil_r.
  destruct (in_processed f after) eqn:A; [reflexivity|].
  destruct (in_processed f before) eqn:B;
    [rewrite (Old f B) in A; discriminate|].
  destruct (new_records (attempt f)) as [|r rs] eqn:R; [reflexivity|].
  rewrite (New f r) in A; auto; [discriminate|now left|].
  rewrite R. now left.
Qed.

(** A staged record of an attempted document carries its name. *)
Lemma staged_stamped processed_files pdfs r :
  In r (staged processed_files pdfs) -> has "source_file" r = true.
Proof.
  intros H.
  destruct (staged_complete fitz_open generate_content json_loads
              processed_files pdfs r H)
    as (f & raw & obj & events & _ & _ & _ & _ & _ & ->).
  apply has_set.
Qed.

Lemma attempt_stamped f r :
  In r (new_records (attempt f)) -> get "source_file" r = Some (Str f).
Proof.
  destruct (attempt_cases fitz_open generate_content json_loads f)
    as [(raw & obj & events & _ & _ & _ & -> & _)|(-> & _)];
    [|contradiction].
  intros [<-|[]]. apply get_set.
Qed.

(** After a run that staged records, a document that gave one is recorded
    in the first column of the appended lines. *)
Lemma appended_recorded processed_files pdfs f r old :
  In f pdfs -> in_processed f processed_files = false ->
  In r (new_records (attempt f)) ->
  let records := staged processed_files pdfs in
  let cols := reorder (frame_labels records) in
  in_processed f (unique (recorded (old ++ map (record_line cols) records)))
  = true.
Proof.
  intros Hf I Hr records cols.
  assert (S : In r records).
  { unfold records, LoopFacts.staged. apply in_flat_map. exists f.
    now rewrite I. }
  destruct (reorder_stamped records) as [rest C].
  { intros E. rewrite E in S. contradiction. }
  { intros r'. apply staged_stamped. }
  rewrite in_processed_unique. unfold in_processed, recorded.
  apply existsb_exists. exists (Str f). split.
  - apply in_map_iff. exists (record_line cols r). split.
    + unfold cols. rewrite C, record_line_first.
      now rewrite (attempt_stamped f r Hr).
    + apply in_or_app. right. now apply in_map.
  - apply String.eqb_refl.
Qed.

Lemma kept_recorded f old new :
  in_processed f (unique (recorded old)) = true ->
  in_processed f (unique (recorded (old ++ new))) = true.
Proof.
  rewrite !in_processed_unique. unfold in_processed, recorded.
  rewrite map_app, existsb_app. intros H. apply orb_true_iff. now left.
Qed.

(** The set of processed files of a log that can be taken up again. *)
Lemma ready_shape log :
  ledger_ready log = true ->
  exists old,
    get_processed_files log = Ret (unique (recorded old))
    /\ (log = None /\ old = [] \/ exists header, log = Some (header :: old)).
Proof.
  intros H. destruct log as [[|header old]|]; [discriminate| |].
  - exists old. split; [now apply ready_processed|]. right. now exists header.
  - exists []. auto.
Qed.

(** The log after records were appended to a log that can be taken up
    again: the old lines, then the new ones. *)
Lemma saved_shape d old records :
  records <> [] ->
  (LOG_FILE d = None /\ old = [] \/ exists header, LOG_FILE d = Some (header :: old)) ->
  exists header,
    LOG_FILE (saved d records)
    = Some (header :: old
            ++ map (record_line (reorder (frame_labels records))) records).
Proof.
  intros N [[L ->]|[header L]]; unfold saved, to_csv_append, header_needed;
    cbn [LOG_FILE]; rewrite L.
  - now exists (map Str (reorder (frame_labels records))).
  - exists header. now rewrite <- app_comm_cons.
Qed.

Lemma rerun c d :
  ledger_ready (LOG_FILE d) = true ->
  ledger_ready (LOG_FILE (disk (run c d))) = true ->
  disk (run c (disk (run c d))) = disk (run c d)
  /\ ended (run c (disk (run c d))) = Ret tt.
Proof.
  intros H0 H1.
  destruct (truthy (resolve_api_key c)) eqn:K;
    [|now rewrite !(run_without_key _ _ _ c) by assumption].
  destruct (ready_shape _ H0) as (old & G0 & Shape).
  pose proof (run_readable fitz_open generate_content json_loads c d _ K G0)
    as R. cbv zeta in R.
  destruct (staged (unique (recorded old)) (pdf_files d)) as [|r rs] eqn:S.
  { rewrite R. cbn [disk]. rewrite R. now split. }
  rewrite R in H1 |- *. cbn [disk] in H1 |- *.
  destruct (saved_shape d old (r :: rs)) as [header L1];
    [discriminate|assumption|].
  rewrite L1 in H1.
  pose proof (ready_processed _ _ H1) as G1. rewrite <- L1 in G1.
  pose proof (run_readable fitz_open generate_content json_loads c
                (saved d (r :: rs)) _ K G1) as R2. cbv zeta in R2.
  rewrite (restaged_nothing (unique (recorded old))) in R2.
  - rewrite R2. now split.
  - intros f r' Hf I Hr. rewrite <- S.
    now apply (appended_recorded (unique (recorded old)) (pdf_files d) f r' old).
  - intros f. apply kept_recorded.
Qed.

End Run.





(** A master log that exists but is empty is read as having no processed
    file, and since it exists the lines are appended without a header: the
    first appended line is taken for the header from then on. *)
Lemma empty_log_is_appended_without_header :
  let empty := {| LOG_FILE := Some []; pdf_files := ["a.pdf"] |} in
  get_processed_files (LOG_FILE empty) = Ret []
  /\ LOG_FILE (disk (sample_run with_key empty)) = Some [sample_line "a.pdf"]
  /\ get_processed_files (LOG_FILE (disk (sample_run with_key empty))) = Ret [].
Proof. repeat split. Qed.

End IdempotenceRule.

(** * Further properties *)

(** ** Text extraction and the cleaning of the answer *)

Module ExtractionProps.
Import Py Pandas Dict ExtractionEngine BulkProcessor LoopFacts.

(** The texts of the pages read before the first page that fails. *)
Fixpoint texts_before_failure (pages : list (res text)) : list text :=
  match pages with
  | Ret t :: pages' => t :: texts_before_failure pages'
  | _ => []
  end.

Fixpoint first_failure (pages : list (res text)) : option exn :=
  match pages with
  | [] => None
  | Ret _ :: pages' => first_failure pages'
  | Raise e :: _ => Some e
  end.

Lemma get_pages_text_spec acc pages :
  get_pages_text acc pages
  = match first_failure pages with
    | Some e => Raise e
    | None => Ret (acc ++ List.concat (texts_before_failure pages))
    end.
Proof.
  revert acc. induction pages as [|[t|e] pages IH]; intros acc; simpl.
  - now rewrite app_nil_r.
  - rewrite IH. destruct (first_failure pages); [reflexivity|].
    now rewrite app_assoc.
  - reflexivity.
Qed.

Lemma first_failure_none texts : first_failure (map Ret texts) = None.
Proof. induction texts; simpl; auto. Qed.

Lemma texts_all texts : texts_before_failure (map Ret texts) = texts.
Proof. induction texts; simpl; congruence. Qed.

Lemma first_failure_some texts e rest :
  first_failure (map Ret texts ++ Raise e :: rest) = Some e.
Proof. induction texts; simpl; auto. Qed.

(** X1.  [extract_text_from_pdf] returns the texts of the pages joined in
    page order; a document without pages gives the empty text; it raises
    what opening the file raises, and otherwise what the first failing page
    raises, whatever the pages after it hold. *)
Theorem extracted_text_is_the_pages_joined :
  forall (fitz_open : string -> res (list (res text))) (pdf_path : string),
    extract_text_from_pdf fitz_open pdf_path
    = match fitz_open pdf_path with
      | Raise e => Raise e
      | Ret doc =>
          match first_failure doc with
          | Some e => Raise e
          | None => Ret (List.concat (texts_before_failure doc))
          end
      end
    /\ (forall texts,
          fitz_open pdf_path = Ret (map Ret texts) ->
          extract_text_from_pdf fitz_open pdf_path = Ret (List.concat texts))
    /\ (forall texts e rest,
          fitz_open pdf_path = Ret (map Ret texts ++ Raise e :: rest) ->
          extract_text_from_pdf fitz_open pdf_path = Raise e).
Proof.
  intros fitz_open pdf_path. unfold extract_text_from_pdf.
  split; [|split].
  - destruct (fitz_open pdf_path) as [doc|e]; [|reflexivity].
    now rewrite get_pages_text_spec.
  - intros texts ->. rewrite get_pages_text_spec.
    now rewrite first_failure_none, texts_all.
  - intros texts e rest ->. rewrite get_pages_text_spec.
    now rewrite first_failure_some.
Qed.

Lemma extracted_text_is_the_pages_joined_witness :
  let fitz := fun _ : string =>
                Ret [Ret [73; 78]%N; Ret [86]%N; Raise "damaged page"; Ret [88]%N] in
  fitz "a.pdf" = Ret (map Ret [[73; 78]%N; [86]%N]
                      ++ Raise "damaged page" :: [Ret [88]%N])
  /\ extract_text_from_pdf fitz "a.pdf" = Raise "damaged page".
Proof.
  split; [reflexivity|].
  exact (proj2 (proj2 (extracted_text_is_the_pages_joined
                         (fun _ => Ret [Ret [73; 78]%N; Ret [86]%N;
                                        Raise "damaged page"; Ret [88]%N])
                         "a.pdf"))
           [[73; 78]%N; [86]%N] "damaged page" [Ret [88]%N] eq_refl).
Defined.

(** *** [str.replace] *)

Definition backtick : N := 96%N.

Definition free_of (c : N) (s : text) : Prop := forall x, In x s -> x <> c.

Lemma startswith_app old s : startswith old (old ++ s) = true.
Proof.
  induction old as [|c old IH]; simpl; [reflexivity|].
  now rewrite N.eqb_refl, IH.
Qed.

Lemma replace_from_skip old new p s :
  replace_from old new (List.length p) (p ++ s) = replace_from old new 0 s.
Proof.
  induction p as [|c p IH]; simpl; [reflexivity|exact IH].
Qed.

(** An occurrence at the front is replaced, and the search goes on behind
    it. *)
Lemma replace_front c old new s :
  replace (c :: old) new ((c :: old) ++ s) = new ++ replace (c :: old) new s.
Proof.
  unfold replace. simpl. rewrite N.eqb_refl, startswith_app. simpl.
  now rewrite Nat.sub_0_r, replace_from_skip.
Qed.

(** Text without the first character of [old] is passed over unchanged. *)
Lemma replace_past c old new body s :
  free_of c body ->
  replace (c :: old) new (body ++ s) = body ++ replace (c :: old) new s.
Proof.
  unfold replace. intros F. induction body as [|x body IH]; [reflexivity|].
  simpl. destruct (N.eqb_spec c x) as [->|N].
  - now elim (F x (or_introl eq_refl)).
  - simpl. f_equal. apply IH. intros y Hy. apply F. now right.
Qed.

(** The text handed to [json.loads]. *)
Definition cleaned (t : text) : text :=
  strip (replace fence [] (replace fence_json [] t)).

Lemma cleaned_fenced body :
  free_of backtick body -> cleaned (fence_json ++ body ++ fence) = strip body.
Proof.
  intros F. unfold cleaned. f_equal.
  change fence_json with (backtick :: tl fence_json) at 1 2.
  rewrite replace_front. simpl app at 1.
  rewrite (replace_past backtick _ _ body fence F).
  change (replace (backtick :: tl fence_json) [] fence) with fence.
  change fence with (backtick :: tl fence) at 1 2.
  rewrite (replace_past backtick _ _ body _ F).
  change (replace (backtick :: tl fence) [] (backtick :: tl fence)) with (@nil N).
  apply app_nil_r.
Qed.

Lemma replace_absent c old new body :
  free_of c body -> replace (c :: old) new body = body.
Proof.
  intros F. pose proof (replace_past c old new body [] F) as H.
  rewrite app_nil_r in H. rewrite H. apply app_nil_r.
Qed.

Lemma cleaned_plain body : free_of backtick body -> cleaned body = strip body.
Proof.
  intros F. unfold cleaned. f_equal.
  transitivity (replace fence [] body).
  - f_equal. exact (replace_absent backtick (tl fence_json) [] body F).
  - exact (replace_absent backtick (tl fence) [] body F).
Qed.

(** X2.  [analyze_with_gemini] reads an answer wrapped in a Markdown JSON
    fence as it reads the bare answer: when the body holds no backtick, what
    is parsed is the body without the white space around it, and the object
    parsed from it is returned with nothing printed. *)
Theorem fenced_answer_is_unwrapped :
  forall (generate_content : text -> response) (json_loads : text -> res json)
         (raw_text body : text) (v : json),
    free_of backtick body ->
    generate_content raw_text = ResponseText (fence_json ++ body ++ fence)
    \/ generate_content raw_text = ResponseText body ->
    json_loads (strip body) = Ret v ->
    analyze_with_gemini generate_content json_loads raw_text = ([], Ret v).
Proof.
  intros generate_content json_loads raw_text body v F G J.
  unfold analyze_with_gemini.
  destruct G as [-> | ->].
  - fold (cleaned (fence_json ++ body ++ fence)).
    now rewrite (cleaned_fenced body F), J.
  - fold (cleaned body). now rewrite (cleaned_plain body F), J.
Qed.

Lemma fenced_answer_is_unwrapped_witness :
  let body := [10; 123; 125; 10]%N in
  let generate := fun _ : text => ResponseText (fence_json ++ body ++ fence) in
  free_of backtick body
  /\ RunFacts.sample_loads (strip body)
     = Ret (JDict [("vendor_name", Str "Acme"); ("total_amount", Num 100)])
  /\ analyze_with_gemini generate RunFacts.sample_loads [73; 78; 86]%N
     = ([], Ret (JDict [("vendor_name", Str "Acme"); ("total_amount", Num 100)])).
Proof.
  assert (F : free_of backtick [10; 123; 125; 10]%N)
    by (intros x [<-|[<-|[<-|[<-|[]]]]]; discriminate).
  split; [exact F|]. split; [reflexivity|].
  exact (fenced_answer_is_unwrapped
           (fun _ => ResponseText (fence_json ++ [10; 123; 125; 10]%N ++ fence))
           RunFacts.sample_loads [73; 78; 86]%N [10; 123; 125; 10]%N _
           F (or_introl eq_refl) eq_refl).
Defined.

End ExtractionProps.

(** ** One document in the loop *)

Module DocumentProps.
Import Py Pandas Dict ExtractionEngine BulkProcessor LoopFacts RunFacts.
Import ExtractionProps.

Definition is_no_text (e : event) : bool :=
  match e with WarningNoText _ => true | _ => false end.

Lemma get_set_other k k' v d :
  k <> k' -> get k (set k' v d) = get k d.
Proof.
  intros N. induction d as [|[k0 v0] d IH]; simpl.
  - destruct (String.eqb_spec k k'); [contradiction|reflexivity].
  - destruct (String.eqb_spec k' k0) as [->|N0]; simpl.
    + destruct (String.eqb_spec k k0); [contradiction|reflexivity].
    + now rewrite IH.
Qed.

Lemma keys_set k v d :
  keys (set k v d) = if has k d then keys d else keys d ++ [k].
Proof.
  induction d as [|[k0 v0] d IH]; simpl; [reflexivity|].
  destruct (String.eqb_spec k k0) as [->|N]; simpl; [reflexivity|].
  unfold keys in *. rewrite IH. now destruct (has k d).
Qed.

Section Run.
Variable fitz_open : string -> res (list (res text)).
Variable generate_content : text -> response.
Variable json_loads : text -> res json.

Local Abbreviation attempt := (attempt fitz_open generate_content json_loads).

(** What [analyze_with_gemini] prints says nothing about a file. *)
Lemma analyze_prints_no_warning raw_text :
  existsb is_no_text
    (fst (analyze_with_gemini generate_content json_loads raw_text)) = false.
Proof.
  unfold analyze_with_gemini.
  destruct (generate_content raw_text); try reflexivity.
  now destruct (json_loads _).
Qed.

Lemma no_text_printed f raw_text :
  extract_text_from_pdf fitz_open f = Ret raw_text ->
  existsb is_no_text (out (attempt f)) = forallb isspace raw_text.
Proof.
  intros X. destruct (forallb isspace raw_text) eqn:W.
  - apply TextFacts.strip_nil in W.
    now rewrite (IsolationRule.no_text fitz_open generate_content json_loads
                   f raw_text X W).
  - assert (S : strip raw_text <> [])
      by (rewrite TextFacts.strip_nil; congruence).
    unfold LoopFacts.attempt, body, loop_body. simpl. rewrite X.
    destruct raw_text as [|ch raw_text]; [now elim S|].
    destruct (strip (ch :: raw_text)); [now elim S|].
    pose proof (analyze_prints_no_warning (ch :: raw_text)) as A.
    destruct (analyze_with_gemini _ _ _) as [events [[d|]|e]]; simpl in *;
      try destruct (has "error" d); simpl;
      rewrite existsb_app, A; reflexivity.
Qed.

End Run.

(** X3.  A document whose Gemini call raises, or whose answer [json.loads]
    rejects, is never staged: [analyze_with_gemini] turns the failure into
    its error object, and the loop prints the error of that object for the
    file.  When reading the text of the response is what raises, the
    exception leaves [analyze_with_gemini] and the loop reports it as a
    critical error; the document is not staged either. *)
Theorem gemini_failure_is_reported_and_skipped :
  forall (fitz_open : string -> res (list (res text)))
         (generate_content : text -> response)
         (json_loads : text -> res json)
         (f : string) (raw_text : text) (e : exn),
    extract_text_from_pdf fitz_open f = Ret raw_text ->
    forallb isspace raw_text = false ->
    let attempt := attempt fitz_open generate_content json_loads f in
    (generate_content raw_text = CallRaised e
     \/ (exists t, generate_content raw_text = ResponseText t
                   /\ json_loads (cleaned t) = Raise e) ->
     new_records attempt = []
     /\ filter is_failure (out attempt)
        = [ErrorFromGemini f
             (Some (Str "Failed to parse JSON from Gemini response."))])
    /\ (generate_content raw_text = TextRaises e ->
        new_records attempt = []
        /\ filter is_failure (out attempt) = [CriticalError f e]).
Proof.
  intros fitz_open generate_content json_loads f raw_text e X W attempt.
  assert (S : strip raw_text <> [])
    by (rewrite TextFacts.strip_nil; congruence).
  subst attempt. unfold LoopFacts.attempt, body, loop_body. simpl. rewrite X.
  destruct raw_text as [|ch raw_text]; [now elim S|].
  destruct (strip (ch :: raw_text)); [now elim S|].
  unfold analyze_with_gemini. split.
  - intros [G|(answer & G & J)]; rewrite G.
    + split; reflexivity.
    + fold (cleaned answer). rewrite J. split; reflexivity.
  - intros G. rewrite G. split; reflexivity.
Qed.

Lemma gemini_failure_is_reported_and_skipped_witness :
  let generate := fun _ : text => CallRaised "quota exceeded" in
  extract_text_from_pdf sample_fitz "a.pdf" = Ret [73; 78; 86]%N
  /\ forallb isspace [73; 78; 86]%N = false
  /\ new_records (attempt sample_fitz generate sample_loads "a.pdf") = []
  /\ filter is_failure (out (attempt sample_fitz generate sample_loads "a.pdf"))
     = [ErrorFromGemini "a.pdf"
          (Some (Str "Failed to parse JSON from Gemini response."))].
Proof.
  split; [reflexivity|]. split; [reflexivity|].
  exact (proj1 (gemini_failure_is_reported_and_skipped sample_fitz
                  (fun _ => CallRaised "quota exceeded") sample_loads
                  "a.pdf" [73; 78; 86]%N "quota exceeded" eq_refl eq_refl)
           (or_introl eq_refl)).
Defined.

(** X4.  A document whose text could be extracted is reported as having no
    text exactly when the text is empty or all white space; in that case
    nothing else is printed about it and nothing is staged. *)
Theorem no_text_warning_means_blank :
  forall (fitz_open : string -> res (list (res text)))
         (generate_content : text -> response)
         (json_loads : text -> res json)
         (f : string) (raw_text : text),
    extract_text_from_pdf fitz_open f = Ret raw_text ->
    let attempt := attempt fitz_open generate_content json_loads f in
    existsb is_no_text (out attempt) = forallb isspace raw_text
    /\ (forallb isspace raw_text = true ->
        attempt = {| new_records := [];
                     out := [ProcessingNewFile f; WarningNoText f] |}).
Proof.
  intros fitz_open generate_content json_loads f raw_text X attempt.
  split; [now apply no_text_printed|].
  intros W. apply TextFacts.strip_nil in W.
  exact (IsolationRule.no_text fitz_open generate_content json_loads
           f raw_text X W).
Qed.

Lemma no_text_warning_means_blank_witness :
  extract_text_from_pdf sample_fitz "scan.pdf" = Ret [32; 10]%N
  /\ existsb is_no_text
       (out (attempt sample_fitz sample_model sample_loads "scan.pdf"))
     = true.
Proof.
  split; [reflexivity|].
  exact (proj1 (no_text_warning_means_blank sample_fitz sample_model
                  sample_loads "scan.pdf" [32; 10]%N eq_refl)).
Defined.

(** X5.  A staged record is the object the adapter returned with the name
    of the file under [source_file]: the name wins over a [source_file] the
    object brought along, every other field keeps its value, and the keys
    keep their order ([source_file] goes last when it is new). *)
Theorem stamping_keeps_the_fields :
  forall (fitz_open : string -> res (list (res text)))
         (generate_content : text -> response)
         (json_loads : text -> res json)
         (f : string) (record : dict),
    In record (new_records (attempt fitz_open generate_content json_loads f)) ->
    exists raw_text obj events,
      extract_text_from_pdf fitz_open f = Ret raw_text
      /\ analyze_with_gemini generate_content json_loads raw_text
         = (events, Ret (JDict obj))
      /\ get "source_file" record = Some (Str f)
      /\ (forall k, k <> "source_file" -> get k record = get k obj)
      /\ keys record
         = if has "source_file" obj then keys obj
           else keys obj ++ ["source_file"].
Proof.
  intros fitz_open generate_content json_loads f record H.
  destruct (attempt_cases fitz_open generate_content json_loads f)
    as [(raw & obj & events & X & G & _ & R & _)|(R & _)];
    rewrite R in H; [|contradiction].
  destruct H as [<-|[]]. exists raw, obj, events.
  split; [exact X|]. split; [exact G|].
  split; [apply IdempotenceFacts.get_set|].
  split; [intros k N; now apply get_set_other|apply keys_set].
Qed.

Lemma stamping_keeps_the_fields_witness :
  let loads := fun _ : text =>
    Ret (JDict [("source_file", Str "guess.pdf"); ("vendor_name", Str "Acme")]) in
  In [("source_file", Str "a.pdf"); ("vendor_name", Str "Acme")]
     (new_records (attempt sample_fitz sample_model loads "a.pdf"))
  /\ exists raw_text obj events,
       extract_text_from_pdf sample_fitz "a.pdf" = Ret raw_text
       /\ analyze_with_gemini sample_model loads raw_text
          = (events, Ret (JDict obj))
       /\ get "source_file" [("source_file", Str "a.pdf"); ("vendor_name", Str "Acme")]
          = Some (Str "a.pdf")
       /\ (forall k, k <> "source_file" ->
             get k [("source_file", Str "a.pdf"); ("vendor_name", Str "Acme")]
             = get k obj)
       /\ keys [("source_file", Str "a.pdf"); ("vendor_name", Str "Acme")]
          = if has "source_file" obj then keys obj
            else keys obj ++ ["source_file"].
Proof.
  split; [now left|].
  exact (stamping_keeps_the_fields sample_fitz sample_model
           (fun _ => Ret (JDict [("source_file", Str "guess.pdf");
                                 ("vendor_name", Str "Acme")]))
           "a.pdf" [("source_file", Str "a.pdf"); ("vendor_name", Str "Acme")]
           (or_introl eq_refl)).
Defined.

End DocumentProps.

(** ** The master log over the runs *)

Module LedgerProps.
Import Py Pandas Dict ExtractionEngine BulkProcessor LoopFacts RunFacts.
Import CellFacts IdempotenceFacts.

Definition not_source_file (col : string) : bool :=
  negb (String.eqb col "source_file").

Lemma mem_In k l : mem k l = true <-> In k l.
Proof.
  unfold mem. rewrite existsb_exists. split.
  - intros (x & Hx & E). apply String.eqb_eq in E. now subst.
  - intros H. exists k. split; [assumption|apply String.eqb_refl].
Qed.

Lemma add_labels_nodup ks labels :
  NoDup labels -> NoDup (fold_left add_label ks labels).
Proof.
  revert labels. induction ks as [|k ks IH]; intros labels N; simpl;
    [assumption|].
  apply IH. unfold add_label. destruct (mem k labels) eqn:M; [assumption|].
  apply NoDup_app; [assumption|repeat constructor; intros []|].
  intros a Ha [<-|[]]. apply mem_In in Ha. congruence.
Qed.

Lemma frame_labels_nodup records : NoDup (frame_labels records).
Proof.
  unfold frame_labels.
  assert (G : forall labels, NoDup labels ->
            NoDup (fold_left (fun labels d => fold_left add_label (keys d) labels)
                     records labels)).
  { induction records as [|d records IH]; intros labels N; simpl;
      [assumption|]. apply IH. now apply add_labels_nodup. }
  apply G. constructor.
Qed.

Lemma frame_labels_in k records :
  In k (frame_labels records) <-> exists r, In r records /\ has k r = true.
Proof.
  rewrite <- mem_In. unfold frame_labels.
  rewrite frame_labels_from_mem. simpl. rewrite existsb_exists.
  split; intros (r & Hr & E); exists r; split; auto;
    now rewrite ?has_keys in *.
Qed.

Lemma reorder_in k labels : In k (reorder labels) <-> In k labels.
Proof.
  unfold reorder. destruct (mem "source_file" labels) eqn:M; [|tauto].
  apply mem_In in M. simpl. rewrite filter_In. split.
  - intros [<-|[H _]]; assumption.
  - intros H. destruct (String.eqb_spec k "source_file") as [->|N]; [now left|].
    right. split; [assumption|reflexivity].
Qed.

Lemma reorder_nodup labels : NoDup labels -> NoDup (reorder labels).
Proof.
  intros N. unfold reorder. destruct (mem "source_file" labels); [|assumption].
  constructor; [|now apply NoDup_filter].
  rewrite filter_In. intros [_ H]. now rewrite String.eqb_refl in H.
Qed.

(** X6.  The columns of the frame that is written: every key of every
    staged record, each once; [source_file] first when a record has it, the
    other keys behind it in the order in which the records brought them; and
    every line written has one cell for each column. *)
Theorem columns_of_the_written_frame :
  forall records : list dict,
    let cols := reorder (frame_labels records) in
    NoDup cols
    /\ (forall k, In k cols <-> exists r, In r records /\ has k r = true)
    /\ ((exists r, In r records /\ has "source_file" r = true) ->
        cols = "source_file" :: filter not_source_file (frame_labels records))
    /\ (forall r, List.length (record_line cols r) = List.length cols)
    /\ (forall r k, In k cols ->
          In (match get k r with Some v => v | None => NaN end)
             (record_line cols r)).
Proof.
  intros records cols. split; [|split; [|split; [|split]]].
  - apply reorder_nodup, frame_labels_nodup.
  - intros k. unfold cols. now rewrite reorder_in, frame_labels_in.
  - intros H. apply frame_labels_in, mem_In in H.
    unfold cols, reorder. now rewrite H.
  - intros r. apply length_map.
  - intros r k H. unfold record_line.
    now apply (in_map (fun k => match get k r with Some v => v | None => NaN end)).
Qed.

Lemma columns_of_the_written_frame_witness :
  let records := [[("vendor_name", Str "Acme"); ("source_file", Str "a.pdf")];
                  [("total_amount", Num 5); ("source_file", Str "b.pdf");
                   ("vendor_name", Str "Bolt")]] in
  (exists r, In r records /\ has "source_file" r = true)
  /\ reorder (frame_labels records)
     = ["source_file"; "vendor_name"; "total_amount"].
Proof.
  split; [eexists; split; [now left|reflexivity]|].
  refine (proj1 (proj2 (proj2 (columns_of_the_written_frame _))) _).
  eexists; split; [now left|reflexivity].
Defined.


(** The files of the directory that are attempted and give a record. *)
Definition succeeded (fitz_open : string -> res (list (res text)))
    (generate_content : text -> response) (json_loads : text -> res json)
    (processed_files : list cell) (pdfs : list string) : list string :=
  filter (fun f => negb (in_processed f processed_files)
                   && negb (failed fitz_open generate_content json_loads
                              processed_files f)) pdfs.

(** The [source_file] column of a master log that has one in front. *)
Definition source_column (log : option (list line)) : list cell :=
  match log with
  | Some (_ :: rows) => recorded rows
  | _ => []
  end.

Section Run.
Variable fitz_open : string -> res (list (res text)).
Variable generate_content : text -> response.
Variable json_loads : text -> res json.

Local Abbreviation run := (run fitz_open generate_content json_loads).
Local Abbreviation attempt := (attempt fitz_open generate_content json_loads).
Local Abbreviation staged := (staged fitz_open generate_content json_loads).
Local Abbreviation succeeded :=
  (succeeded fitz_open generate_content json_loads).

(** The disk after any number of runs. *)
Fixpoint runs (n : nat) (c : Credentials) (d : Disk) : Disk :=
  match n with
  | O => d
  | S n' => disk (run c (runs n' c d))
  end.

(** What a run leaves on disk, in all cases. *)
Lemma run_disk c d :
  disk (run c d) = d
  \/ exists processed_files r rs,
       truthy (resolve_api_key c) = true
       /\ get_processed_files (LOG_FILE d) = Ret processed_files
       /\ staged processed_files (pdf_files d) = r :: rs
       /\ disk (run c d) = saved d (r :: rs).
Proof.
  destruct (truthy (resolve_api_key c)) eqn:K;
    [|left; now rewrite run_without_key].
  destruct (get_processed_files (LOG_FILE d)) as [P|e] eqn:G;
    [|left; now rewrite (run_unreadable _ _ _ c d e K G)].
  rewrite (run_readable _ _ _ c d P K G).
  destruct (staged P (pdf_files d)) as [|r rs] eqn:S; [now left|].
  right. exists P, r, rs. auto.
Qed.

(** The names in front of the lines of the staged records. *)
Lemma staged_recorded processed_files pdfs rest :
  recorded (map (record_line ("source_file" :: rest))
              (staged processed_files pdfs))
  = map Str (succeeded processed_files pdfs).
Proof.
  induction pdfs as [|f pdfs IH]; [reflexivity|].
  change (staged processed_files (f :: pdfs))
    with ((if in_processed f processed_files then []
           else new_records (attempt f)) ++ staged processed_files pdfs).
  change (succeeded processed_files (f :: pdfs))
    with (if negb (in_processed f processed_files)
             && negb (failed fitz_open generate_content json_loads
                        processed_files f)
          then f :: succeeded processed_files pdfs
          else succeeded processed_files pdfs).
  unfold recorded in *. rewrite !map_app.
  etransitivity; [apply (f_equal (app _)); exact IH|]. unfold failed.
  destruct (in_processed f processed_files); [reflexivity|].
  destruct (attempt_cases fitz_open generate_content json_loads f)
    as [(raw & obj & events & _ & _ & _ & -> & _)|(-> & _)];
    [|reflexivity].
  cbn [negb andb map app]. rewrite record_line_first, get_set. reflexivity.
Qed.

Lemma in_processed_In f l :
  in_processed f l = true <-> In (Str f) l.
Proof.
  unfold in_processed. rewrite existsb_exists. split.
  - intros (x & Hx & E). destruct x; try discriminate.
    apply String.eqb_eq in E. now subst.
  - intros H. exists (Str f). split; [assumption|apply String.eqb_refl].
Qed.

Lemma succeeded_new processed_files pdfs f :
  In f (succeeded processed_files pdfs) -> in_processed f processed_files = false.
Proof.
  unfold LedgerProps.succeeded. rewrite filter_In. intros [_ H].
  apply andb_true_iff in H. now apply negb_true_iff.
Qed.

Lemma map_Str_nodup l : NoDup l -> NoDup (map Str l).
Proof.
  induction 1 as [|x l Hx N IH]; simpl; constructor; [|assumption].
  rewrite in_map_iff. intros (y & [= ->] & Hy). contradiction.
Qed.

(** A master log that starts afresh can be taken up again after a run. *)
Lemma fresh_ready c d :
  LOG_FILE d = None -> ledger_ready (LOG_FILE (disk (run c d))) = true.
Proof.
  intros L. destruct (run_disk c d) as [->|(P & r & rs & _ & _ & S & ->)];
    [now rewrite L|].
  unfold saved, to_csv_append, header_needed. rewrite L. cbn [LOG_FILE app].
  destruct (reorder_stamped (r :: rs)) as [rest C]; [discriminate| |].
  { intros r'. rewrite <- S.
    apply (IdempotenceRule.staged_stamped fitz_open generate_content json_loads). }
  rewrite C. unfold ledger_ready.
  change (hd NaN (map Str ("source_file" :: rest))) with (Str "source_file").
  change (cell_eqb (Str "source_file") (Str "source_file"))
    with (String.eqb "source_file" "source_file").
  rewrite String.eqb_refl. cbn [andb].
  apply forallb_forall. intros l Hl. apply in_map_iff in Hl.
  destruct Hl as (r' & <- & _). unfold record_line.
  rewrite !length_map. cbn [List.length]. rewrite Nat.leb_refl. reflexivity.
Qed.

End Run.

End LedgerProps.

Module LedgerRules.
Import Py Pandas Dict ExtractionEngine BulkProcessor LoopFacts RunFacts.
Import CellFacts IdempotenceFacts LedgerProps.


Section Run.
Variable fitz_open : string -> res (list (res text)).
Variable generate_content : text -> response.
Variable json_loads : text -> res json.

Local Abbreviation run := (run fitz_open generate_content json_loads).
Local Abbreviation staged := (staged fitz_open generate_content json_loads).
Local Abbreviation succeeded :=
  (succeeded fitz_open generate_content json_loads).

(** The [source_file] column after a run on a master log that can be taken
    up again: the names it held, then the names of the documents that gave
    a record. *)
Lemma source_column_after c d :
  truthy (resolve_api_key c) = true ->
  ledger_ready (LOG_FILE d) = true ->
  ledger_ready (LOG_FILE (disk (run c d))) = true ->
  exists old,
    get_processed_files (LOG_FILE d) = Ret (unique (recorded old))
    /\ source_column (LOG_FILE d) = recorded old
    /\ get_processed_files (LOG_FILE (disk (run c d)))
       = Ret (unique (source_column (LOG_FILE (disk (run c d)))))
    /\ source_column (LOG_FILE (disk (run c d)))
       = recorded old
         ++ map Str (succeeded (unique (recorded old)) (pdf_files d)).
Proof.
  intros K H0 H1.
  destruct (IdempotenceRule.ready_shape _ H0) as (old & G0 & Shape).
  exists old. split; [exact G0|].
  assert (C0 : source_column (LOG_FILE d) = recorded old)
    by (destruct Shape as [[-> ->]|[header ->]]; reflexivity).
  split; [exact C0|].
  pose proof (run_readable fitz_open generate_content json_loads c d _ K G0)
    as R. cbv zeta in R.
  pose proof (staged_recorded fitz_open generate_content json_loads
                (unique (recorded old)) (pdf_files d)) as N.
  destruct (staged (unique (recorded old)) (pdf_files d)) as [|r rs] eqn:S.
  - rewrite R. cbn [disk]. rewrite C0, G0.
    specialize (N []). cbn [map recorded] in N.
    destruct (succeeded _ _); [|discriminate].
    now rewrite app_nil_r.
  - rewrite R in H1 |- *. cbn [disk] in H1 |- *.
    destruct (IdempotenceRule.saved_shape d old (r :: rs)) as [header L1];
      [discriminate|assumption|].
    rewrite L1 in H1 |- *.
    rewrite (ready_processed _ _ H1). cbn [source_column].
    split; [reflexivity|].
    destruct (reorder_stamped (r :: rs)) as [rest C]; [discriminate| |].
    { intros r'. rewrite <- S.
      apply (IdempotenceRule.staged_stamped fitz_open generate_content
               json_loads). }
    rewrite C. unfold recorded at 1. rewrite map_app.
    apply (f_equal (app _)). exact (N rest).
Qed.

End Run.

(** X8.  What is written is what is read back: on a master log that can be
    taken up again (before and after the run), the set of processed files
    read after a run holds a name exactly when the set read before held it
    or the run staged a record for the document of that name. *)
Theorem processed_files_after_a_run :
  forall (fitz_open : string -> res (list (res text)))
         (generate_content : text -> response)
         (json_loads : text -> res json)
         (c : Credentials) (d : Disk),
    let run := run fitz_open generate_content json_loads in
    truthy (resolve_api_key c) = true ->
    ledger_ready (LOG_FILE d) = true ->
    ledger_ready (LOG_FILE (disk (run c d))) = true ->
    exists before after,
      get_processed_files (LOG_FILE d) = Ret before
      /\ get_processed_files (LOG_FILE (disk (run c d))) = Ret after
      /\ forall f,
           in_processed f after
           = in_processed f before
             || mem f (succeeded fitz_open generate_content json_loads
                         before (pdf_files d)).
Proof.
  intros fitz_open generate_content json_loads c d run K H0 H1.
  destruct (source_column_after fitz_open generate_content json_loads
              c d K H0 H1) as (old & G0 & _ & G1 & C1).
  subst run.
  exists (unique (recorded old)),
         (unique (source_column
                    (LOG_FILE (disk (LoopFacts.run fitz_open generate_content
                                       json_loads c d))))).
  split; [exact G0|]. split; [exact G1|].
  intros f. rewrite C1, !in_processed_unique. unfold in_processed.
  rewrite existsb_app. f_equal. unfold mem.
  generalize (succeeded fitz_open generate_content json_loads
                (unique (recorded old)) (pdf_files d)).
  intros l. induction l as [|g l IH]; [reflexivity|].
  cbn [map existsb]. now rewrite IH.
Qed.

Lemma processed_files_after_a_run_witness :
  truthy (resolve_api_key with_key) = true
  /\ ledger_ready (LOG_FILE IsolationRule.mixed_inbox) = true
  /\ ledger_ready (LOG_FILE (disk (sample_run with_key IsolationRule.mixed_inbox)))
     = true
  /\ exists before after,
       get_processed_files (LOG_FILE IsolationRule.mixed_inbox) = Ret before
       /\ get_processed_files
            (LOG_FILE (disk (sample_run with_key IsolationRule.mixed_inbox)))
          = Ret after
       /\ forall f,
            in_processed f after
            = in_processed f before
              || mem f (succeeded sample_fitz sample_model sample_loads
                          before (pdf_files IsolationRule.mixed_inbox)).
Proof.
  split; [reflexivity|]. split; [reflexivity|]. split; [reflexivity|].
  exact (processed_files_after_a_run sample_fitz sample_model sample_loads
           with_key IsolationRule.mixed_inbox eq_refl eq_refl eq_refl).
Defined.

(** X9.  No document is recorded twice: when the names in the
    [source_file] column are distinct before a run and the directory lists
    every file once, the names in the column are distinct after the run (on
    a master log that can be taken up again before and after). *)
Theorem source_files_stay_distinct :
  forall (fitz_open : string -> res (list (res text)))
         (generate_content : text -> response)
         (json_loads : text -> res json)
         (c : Credentials) (d : Disk),
    let run := run fitz_open generate_content json_loads in
    ledger_ready (LOG_FILE d) = true ->
    ledger_ready (LOG_FILE (disk (run c d))) = true ->
    NoDup (pdf_files d) ->
    NoDup (source_column (LOG_FILE d)) ->
    NoDup (source_column (LOG_FILE (disk (run c d)))).
Proof.
  intros fitz_open generate_content json_loads c d run H0 H1 Nd Nc.
  destruct (truthy (resolve_api_key c)) eqn:K;
    [|subst run; now rewrite run_without_key].
  destruct (source_column_after fitz_open generate_content json_loads
              c d K H0 H1) as (old & _ & C0 & _ & C1).
  subst run. rewrite C1. rewrite C0 in Nc.
  apply NoDup_app; [assumption| |].
  - apply map_Str_nodup. unfold succeeded. now apply NoDup_filter.
  - intros a Ha Hs. apply in_map_iff in Hs. destruct Hs as (f & <- & Hf).
    apply succeeded_new in Hf. rewrite in_processed_unique in Hf.
    apply in_processed_In in Ha. congruence.
Qed.

Lemma nodup_two (a b : string) : a <> b -> NoDup [a; b].
Proof.
  intros N. constructor; [intros [E|[]]; now apply N|].
  constructor; [intros []|constructor].
Qed.

Lemma source_files_stay_distinct_witness :
  let d := {| LOG_FILE := Some [sample_header; sample_line "a.pdf"];
              pdf_files := ["a.pdf"; "b.pdf"] |} in
  ledger_ready (LOG_FILE d) = true
  /\ ledger_ready (LOG_FILE (disk (sample_run with_key d))) = true
  /\ source_column (LOG_FILE (disk (sample_run with_key d)))
     = [Str "a.pdf"; Str "b.pdf"]
  /\ NoDup (source_column (LOG_FILE (disk (sample_run with_key d)))).
Proof.
  split; [reflexivity|]. split; [reflexivity|]. split; [reflexivity|].
  refine (source_files_stay_distinct sample_fitz sample_model sample_loads
            with_key
            {| LOG_FILE := Some [sample_header; sample_line "a.pdf"];
               pdf_files := ["a.pdf"; "b.pdf"] |} eq_refl eq_refl _ _).
  - apply nodup_two. discriminate.
  - constructor; [intros []|constructor].
Defined.

(** X10.  Started without a master log, ingestion settles after one run:
    the log the first run creates can be taken up again, and any number of
    further runs over the same directory, with the same credentials and the
    same answers from the adapters, leave the files as the first run left
    them. *)
Theorem repeated_runs_from_scratch :
  forall (fitz_open : string -> res (list (res text)))
         (generate_content : text -> response)
         (json_loads : text -> res json)
         (c : Credentials) (d : Disk) (n : nat),
    LOG_FILE d = None ->
    let run := run fitz_open generate_content json_loads in
    ledger_ready (LOG_FILE (disk (run c d))) = true
    /\ runs fitz_open generate_content json_loads (S n) c d = disk (run c d).
Proof.
  intros fitz_open generate_content json_loads c d n L run.
  pose proof (fresh_ready fitz_open generate_content json_loads c d L) as H1.
  split; [exact H1|].
  induction n as [|n IH]; [reflexivity|].
  change (runs fitz_open generate_content json_loads (S (S n)) c d)
    with (disk (run c (runs fitz_open generate_content json_loads (S n) c d))).
  rewrite IH.
  apply (IdempotenceRule.rerun fitz_open generate_content json_loads c d);
    [now rewrite L|exact H1].
Qed.

Lemma repeated_runs_from_scratch_witness :
  LOG_FILE IsolationRule.mixed_inbox = None
  /\ runs sample_fitz sample_model sample_loads 3 with_key
       IsolationRule.mixed_inbox
     = {| LOG_FILE := Some [sample_header; sample_line "a.pdf";
                            sample_line "b.pdf"];
          pdf_files := pdf_files IsolationRule.mixed_inbox |}.
Proof.
  split; [reflexivity|].
  exact (proj2 (repeated_runs_from_scratch sample_fitz sample_model
                  sample_loads with_key IsolationRule.mixed_inbox 2 eq_refl)).
Defined.

End LedgerRules.

(** ** The two passes of the detection *)

Module PassProps.
Import Py Pandas AnomalyDetector CellFacts SortFacts DuplicateFacts.
Import SpikeFacts OrderFacts OrderRule DetectFacts.

Lemma filter_length_le_impl {A} (P Q : A -> bool) l :
  (forall x, In x l -> P x = true -> Q x = true) ->
  (List.length (filter P l) <= List.length (filter Q l))%nat.
Proof.
  induction l as [|x l IH]; intros H; simpl; [lia|].
  assert (IH' := IH (fun y Hy => H y (or_intror Hy))).
  destruct (P x) eqn:Px.
  - rewrite (H x (or_introl eq_refl) Px). simpl. lia.
  - destruct (Q x); simpl; lia.
Qed.

Lemma in_group_of_two_perm df df' r :
  Permutation df df' -> in_group_of_two df r = in_group_of_two df' r.
Proof.
  intros H. unfold in_group_of_two, group_of.
  now rewrite (Permutation_length (filter_perm (same_key r) _ _ H)).
Qed.

(** X11.  The duplicate pass does not depend on the order of the ledger:
    frames with the same lines in any order give the same duplicate
    entries, up to their order. *)
Theorem duplicates_do_not_depend_on_order :
  forall df df' : list row,
    Permutation df df' ->
    Permutation (find_duplicates df) (find_duplicates df').
Proof.
  intros df df' H. rewrite !find_duplicates_spec.
  apply Permutation_map.
  rewrite (filter_ext (in_group_of_two df) (in_group_of_two df'))
    by (intros r; now apply in_group_of_two_perm).
  now apply filter_perm.
Qed.

Lemma duplicates_do_not_depend_on_order_witness :
  Permutation [invoice "V" 100; invoice "W" 7; invoice "V" 100]
              [invoice "W" 7; invoice "V" 100; invoice "V" 100]
  /\ Permutation
       (find_duplicates [invoice "V" 100; invoice "W" 7; invoice "V" 100])
       (find_duplicates [invoice "W" 7; invoice "V" 100; invoice "V" 100]).
Proof.
  assert (P : Permutation [invoice "V" 100; invoice "W" 7; invoice "V" 100]
                          [invoice "W" 7; invoice "V" 100; invoice "V" 100])
    by apply perm_swap.
  split; [exact P|].
  exact (duplicates_do_not_depend_on_order _ _ P).
Defined.

(** The entries of the duplicate pass with the key of a line. *)
Definition twins (r : row) (entries : list anomaly) : list anomaly :=
  filter (fun a => same_key r (entry a)) entries.

Lemma filter_map_entry (P : row -> bool) l :
  filter (fun a => P (entry a)) (map mark_duplicate l)
  = map mark_duplicate (filter P l).
Proof.
  induction l as [|r l IH]; simpl; [reflexivity|].
  destruct (P r); simpl; now rewrite IH.
Qed.

(** X12.  A duplicate entry never stands alone: for every entry of the
    duplicate pass, the pass holds at least two entries with its vendor and
    amount, namely all the lines of the frame with that vendor and amount;
    so the pass reports no entry or at least two. *)
Theorem duplicate_entries_come_with_their_twins :
  forall df : list row,
    (forall a, In a (find_duplicates df) ->
       twins (entry a) (find_duplicates df)
       = map mark_duplicate (group_of (entry a) df)
       /\ (2 <= List.length (twins (entry a) (find_duplicates df)))%nat)
    /\ List.length (find_duplicates df) <> 1%nat.
Proof.
  intros df.
  assert (T : forall a, In a (find_duplicates df) ->
            twins (entry a) (find_duplicates df)
            = map mark_duplicate (group_of (entry a) df)
            /\ (2 <= List.length (twins (entry a) (find_duplicates df)))%nat).
  { intros a Ha. rewrite find_duplicates_spec in *.
    apply in_map_iff in Ha. destruct Ha as (r & <- & Hr).
    apply filter_In in Hr. destruct Hr as [Hr G]. simpl.
    assert (E : twins r (map mark_duplicate (filter (in_group_of_two df) df))
                = map mark_duplicate (group_of r df)).
    { unfold twins. rewrite filter_map_entry, filter_both. f_equal.
      apply filter_ext_in. intros s Hs.
      destruct (same_key r s) eqn:K; [|apply andb_false_r].
      unfold in_group_of_two in *.
      now rewrite <- (group_of_same_key df r s K), G. }
    split; [exact E|]. rewrite E, length_map.
    now apply Nat.leb_le. }
  split; [exact T|].
  destruct (find_duplicates df) as [|a [|b l]] eqn:E; simpl; try lia.
  destruct (T a (or_introl eq_refl)) as [_ H].
  unfold twins in H. simpl in H.
  destruct (same_key (entry a) (entry a)); simpl in H; lia.
Qed.

(** *** A vendor on its own *)

Section Sorting.
Context {A : Type} (leb : A -> A -> bool).
Hypothesis leb_trans :
  forall x y z, leb x y = true -> leb y z = true -> leb x z = true.



Hypothesis leb_total : forall x y, leb x y = true \/ leb y x = true.

End Sorting.

Section Run.
Variable to_datetime : cell -> option Z.



End Run.




End PassProps.

(** ** Thresholds and the report *)

Module ReportProps.
Import Py Pandas AnomalyDetector CellFacts SortFacts DuplicateFacts.
Import SpikeFacts DetectFacts.

Lemma fold_plus_nonneg l acc :
  (0 <= acc)%Q -> (forall q, In q l -> (0 <= q)%Q) ->
  (0 <= fold_left Qplus l acc)%Q.
Proof.
  revert acc. induction l as [|x l IH]; intros acc A H; simpl; [exact A|].
  apply IH; [|intros q Hq; apply H; now right].
  pose proof (H x (or_introl eq_refl)). lra.
Qed.

Lemma mean_nonneg l : (forall q, In q l -> (0 <= q)%Q) -> (0 <= mean l)%Q.
Proof.
  intros H. unfold mean, Qdiv. apply Qmult_le_0_compat.
  - apply fold_plus_nonneg; [apply Qle_refl|exact H].
  - apply Qinv_le_0_compat. change 0%Q with (inject_Z 0).
    rewrite <- Zle_Qle. lia.
Qed.

Lemma in_removelast {A} (x : A) l : In x (removelast l) -> In x l.
Proof.
  induction l as [|y l IH]; simpl; [auto|].
  destruct l as [|z l]; [contradiction|].
  intros [<-|H]; [now left|right; now apply IH].
Qed.

(** A group flagged at a threshold is flagged at every lower one, when its
    amounts are not negative. *)
Lemma spike_entry_lower thr thr' g a :
  (thr <= thr')%Q -> (forall r, In r g -> (0 <= total_amount r)%Q) ->
  spike_entry thr' g = Some a ->
  exists b, spike_entry thr g = Some b /\ entry b = entry a.
Proof.
  intros T N. unfold spike_entry.
  destruct (1 <? List.length g)%nat; [|discriminate].
  destruct (rev g) as [|latest rest]; [discriminate|].
  destruct (Qgtb _ (_ * (1 + thr'))) eqn:G; [|discriminate].
  intros [= <-].
  assert (M : (0 <= mean (map total_amount (removelast g)))%Q).
  { apply mean_nonneg. intros q Hq. apply in_map_iff in Hq.
    destruct Hq as (r & <- & Hr). apply N. now apply in_removelast. }
  assert (G' : Qgtb (total_amount latest)
                 (mean (map total_amount (removelast g)) * (1 + thr)) = true).
  { apply Qgtb_iff. apply Qgtb_iff in G.
    eapply Qle_lt_trans; [|exact G].
    set (m := mean (map total_amount (removelast g))) in *.
    assert (P : (0 <= m * (thr' - thr))%Q)
      by (apply Qmult_le_0_compat; lra).
    setoid_replace (m * (1 + thr'))%Q
      with (m * (1 + thr) + m * (thr' - thr))%Q by ring.
    lra. }
  rewrite G'. eexists. split; reflexivity.
Qed.

Lemma in_find_spikes thr df a :
  In a (find_spikes thr df) <->
  exists k, In k (stable_sort cell_leb (unique (map vendor_name df)))
            /\ spike_entry thr (group_rows k df) = Some a.
Proof.
  rewrite find_spikes_keys, in_flat_map. split; intros (k & Hk & H); exists k;
    (split; [exact Hk|]).
  - destruct (spike_entry thr (group_rows k df)); simpl in H;
      [destruct H as [<-|[]]; reflexivity|contradiction].
  - rewrite H. now left.
Qed.

Section Run.
Variable to_datetime : cell -> option Z.

Lemma sorted_amounts has_date cleaned r :
  In r (sorted_by_vendor_date to_datetime has_date cleaned) ->
  exists s, In s cleaned /\ total_amount r = total_amount s.
Proof.
  unfold sorted_by_vendor_date. destruct has_date; [|now exists r].
  intros H. apply (Permutation_in _ (stable_sort_perm row_leb _)) in H.
  apply in_map_iff in H. destruct H as (s & <- & Hs). now exists s.
Qed.

End Run.

(** X14.  With no negative amount in the ledger, lowering the threshold
    never loses a spike: every line flagged as a spike at a threshold is
    flagged at every lower threshold. *)
Theorem lower_threshold_keeps_the_spikes :
  forall (to_datetime : cell -> option Z) (has_date : bool)
         (threshold higher : Q) (cleaned : list row) (a : anomaly),
    (threshold <= higher)%Q ->
    (forall r, In r cleaned -> (0 <= total_amount r)%Q) ->
    In a (find_spikes higher
            (sorted_by_vendor_date to_datetime has_date cleaned)) ->
    exists b,
      In b (find_spikes threshold
              (sorted_by_vendor_date to_datetime has_date cleaned))
      /\ entry b = entry a.
Proof.
  intros to_datetime has_date thr thr' cleaned a T N H.
  apply in_find_spikes in H. destruct H as (k & Hk & E).
  assert (G : forall r,
            In r (group_rows k
                    (sorted_by_vendor_date to_datetime has_date cleaned)) ->
            (0 <= total_amount r)%Q).
  { intros r Hr. apply filter_In in Hr. destruct Hr as [Hr _].
    destruct (sorted_amounts to_datetime has_date cleaned r Hr) as (s & Hs & ->).
    now apply N. }
  destruct (spike_entry_lower thr thr' _ a T G E) as (b & Eb & Hb).
  exists b. split; [|exact Hb]. apply in_find_spikes. now exists k.
Qed.

Lemma lower_threshold_keeps_the_spikes_witness :
  exists b,
    In b (find_spikes (10 # 100)
            [invoice "V" 100; invoice "V" 100; invoice "V" 130])
    /\ entry b = invoice "V" 130.
Proof.
  apply (lower_threshold_keeps_the_spikes (fun _ => None) false
           (10 # 100) (20 # 100)
           [invoice "V" 100; invoice "V" 100; invoice "V" 130]
           {| entry := invoice "V" 130;
              anomaly_type := "Price Spike (>20%)";
              details := Some "Amount 130.00 vs. Avg 100.00" |}).
  - unfold Qle. simpl. lia.
  - intros r [<-|[<-|[<-|[]]]]; unfold Qle; simpl; lia.
  - left. reflexivity.
Defined.

(** With credit notes the rule turns round: a negative average lowers the
    bound as the threshold grows. *)
Lemma credit_notes_turn_the_rule_round :
  find_spikes (10 # 100)
    [invoice "V" (-100); invoice "V" (-100); invoice "V" (-115)] = []
  /\ List.length
       (find_spikes (20 # 100)
          [invoice "V" (-100); invoice "V" (-100); invoice "V" (-115)]) = 1%nat.
Proof. split; reflexivity. Qed.

Lemma spike_entry_shape thr g a :
  spike_entry thr g = Some a ->
  anomaly_type a = spike_type thr /\ details a <> None.
Proof.
  unfold spike_entry. destruct (1 <? List.length g)%nat; [|discriminate].
  destruct (rev g); [discriminate|]. destruct (Qgtb _ _); [|discriminate].
  intros [= <-]. simpl. split; [reflexivity|discriminate].
Qed.

(** X15.  A report is never written empty, and what is written is well
    formed: the duplicate entries (typed as such, without details) stand
    before the spikes (typed with the threshold, with details), and every
    entry is a line of the master log that has a vendor and a numeric
    amount.  In every other case the report file is left as it was. *)
Theorem written_report_is_well_formed :
  forall (to_datetime : cell -> option Z)
         (generate_summary : list anomaly -> res string)
         (spike_threshold : Q) (c : Credentials) (d : Disk),
    let after := disk (detect to_datetime generate_summary spike_threshold c d) in
    REPORT_FILE after = REPORT_FILE d
    \/ exists content frame duplicates spikes,
         LOG_FILE d = Some content /\ read_csv content = Frame frame
         /\ REPORT_FILE after = Some (duplicates ++ spikes)
         /\ duplicates ++ spikes <> []
         /\ Forall (fun a => anomaly_type a = "Potential Duplicate Billing"
                             /\ details a = None) duplicates
         /\ Forall (fun a => anomaly_type a = spike_type spike_threshold
                             /\ details a <> None) spikes
         /\ Forall (fun a => In (cells (entry a)) (data frame)
                             /\ malformed frame (cells (entry a)) = false)
                   (duplicates ++ spikes).
Proof.
  intros to_datetime generate_summary thr c d after. subst after.
  destruct (LOG_FILE d) as [content|] eqn:L;
    [|left; apply detect_report_unreadable; intros ? ? E; now rewrite L in E].
  destruct (read_csv content) as [| |frame] eqn:R;
    try (left; apply detect_report_unreadable; intros ? ? E E';
         rewrite L in E; injection E as <-; rewrite R in E'; discriminate).
  destruct (has_column frame "total_amount") eqn:A;
    [|left; apply detect_report_unreadable; intros ? ? E E';
      rewrite L in E; injection E as <-; rewrite R in E';
      injection E' as <-; now rewrite A].
  destruct (has_column frame "vendor_name") eqn:V;
    [|left; apply detect_report_unreadable; intros ? ? E E';
      rewrite L in E; injection E as <-; rewrite R in E';
      injection E' as <-; now rewrite A, V].
  rewrite (detect_report to_datetime generate_summary thr c d content frame
             L R A V).
  destruct (anomalies_of to_datetime thr frame) as [|a found] eqn:F;
    [now left|].
  right. rewrite <- F.
  exists content, frame, (find_duplicates (clean frame)),
    (find_spikes thr
       (sorted_by_vendor_date to_datetime (has_column frame "date")
          (clean frame))).
  fold (anomalies_of to_datetime thr frame).
  repeat split; try assumption; try reflexivity.
  - rewrite F. discriminate.
  - apply Forall_forall. intros b Hb. unfold find_duplicates in Hb.
    apply in_map_iff in Hb. destruct Hb as (r & <- & _). now split.
  - apply Forall_forall. intros b Hb. apply in_find_spikes in Hb.
    destruct Hb as (k & _ & E). now apply spike_entry_shape in E.
  - apply Forall_forall. intros b Hb.
    destruct (anomalies_sound to_datetime thr frame b Hb)
      as (r & Hr & -> & _).
    now apply clean_sound.
Qed.

(** X16.  The summary cannot keep the report from being saved, nor change
    it: whatever the credentials are and whatever the call to the model
    does, also when it raises, the run ends without raising and leaves the
    same files. *)
Theorem summary_never_changes_the_files :
  forall (to_datetime : cell -> option Z)
         (generate_summary generate_summary' : list anomaly -> res string)
         (spike_threshold : Q) (c c' : Credentials) (d : Disk),
    disk (detect to_datetime generate_summary spike_threshold c d)
    = disk (detect to_datetime generate_summary' spike_threshold c' d)
    /\ ended (detect to_datetime generate_summary spike_threshold c d) = Ret tt.
Proof.
  intros to_datetime gs gs' thr c c' d. split; [|apply detect_frame].
  unfold detect, detect_financial_anomalies.
  destruct (LOG_FILE d) as [content|]; simpl; [|reflexivity].
  destruct (read_csv content) as [| |frame]; simpl; try reflexivity.
  destruct (negb _); simpl; [reflexivity|].
  destruct (find_duplicates _), (find_spikes _ _); simpl;
    repeat destruct (get_insights_from_gemini _ _ _); reflexivity.
Qed.

Lemma same_disk (a b : Disk) :
  LOG_FILE a = LOG_FILE b -> REPORT_FILE a = REPORT_FILE b -> a = b.
Proof. destruct a, b. simpl. congruence. Qed.

Section Again.
Variable to_datetime : cell -> option Z.
Variable generate_summary : list anomaly -> res string.

Local Abbreviation detect := (detect to_datetime generate_summary).

(** The report after a run, as a function of the log and the report
    before it. *)
Definition report_after (spike_threshold : Q) (d : Disk) : option (list anomaly) :=
  match LOG_FILE d with
  | None => REPORT_FILE d
  | Some content =>
      match read_csv content with
      | Frame frame =>
          if has_column frame "total_amount" && has_column frame "vendor_name"
          then match anomalies_of to_datetime spike_threshold frame with
               | [] => REPORT_FILE d
               | found => Some found
               end
          else REPORT_FILE d
      | _ => REPORT_FILE d
      end
  end.

Lemma detect_report_after thr c d :
  REPORT_FILE (disk (detect thr c d)) = report_after thr d.
Proof.
  unfold report_after.
  destruct (LOG_FILE d) as [content|] eqn:L;
    [|apply detect_report_unreadable; intros ? ? E; now rewrite L in E].
  destruct (read_csv content) as [| |frame] eqn:R;
    try (apply detect_report_unreadable; intros ? ? E E';
         rewrite L in E; injection E as <-; rewrite R in E'; discriminate).
  destruct (has_column frame "total_amount" && has_column frame "vendor_name")
    eqn:H.
  - apply andb_true_iff in H. destruct H as [A V].
    now apply detect_report with content.
  - apply detect_report_unreadable. intros ? ? E E'.
    rewrite L in E. injection E as <-. rewrite R in E'. now injection E' as <-.
Qed.

(** Detecting again on the files a detection left changes nothing. *)
Lemma detect_again thr c c' d :
  disk (detect thr c' (disk (detect thr c d))) = disk (detect thr c d).
Proof.
  apply same_disk; [apply detect_frame|].
  rewrite detect_report_after. unfold report_after.
  rewrite (proj1 (detect_frame to_datetime generate_summary thr c d)).
  pose proof (detect_report_after thr c d) as E. unfold report_after in E.
  destruct (LOG_FILE d) as [content|]; [|reflexivity].
  destruct (read_csv content) as [| |frame]; try reflexivity.
  destruct (has_column frame "total_amount" && has_column frame "vendor_name");
    [|reflexivity].
  destruct (anomalies_of to_datetime thr frame); [reflexivity|].
  now rewrite E.
Qed.

End Again.

(** X17.  Detection is idempotent on the files: running it again on what a
    run left, also with other credentials or another answer of the model,
    changes nothing.  The log is never changed, and a report that is
    written does not depend on the report that was there before: the run
    either leaves the report as it was, or leaves the files it would leave
    from any other report. *)
Theorem detection_twice_changes_nothing :
  forall (to_datetime : cell -> option Z)
         (generate_summary generate_summary' : list anomaly -> res string)
         (spike_threshold : Q) (c c' : Credentials) (d : Disk),
    let once := disk (detect to_datetime generate_summary spike_threshold c d) in
    disk (detect to_datetime generate_summary' spike_threshold c' once) = once
    /\ LOG_FILE once = LOG_FILE d
    /\ (forall report,
          disk (detect to_datetime generate_summary spike_threshold c
                  {| LOG_FILE := LOG_FILE d; REPORT_FILE := report |}) = once
          \/ REPORT_FILE once = REPORT_FILE d).
Proof.
  intros to_datetime gs gs' thr c c' d once. subst once.
  split; [|split].
  - etransitivity; [|exact (detect_again to_datetime gs thr c c' d)].
    apply same_disk.
    + etransitivity; [apply detect_frame|symmetry; apply detect_frame].
    + now rewrite !detect_report_after.
  - apply detect_frame.
  - intros report.
    pose proof (detect_report_after to_datetime gs thr c d) as E.
    pose proof (detect_report_after to_datetime gs thr c
                  {| LOG_FILE := LOG_FILE d; REPORT_FILE := report |}) as E'.
    unfold report_after in E, E'. cbn [LOG_FILE REPORT_FILE] in E'.
    destruct (LOG_FILE d) as [content|] eqn:L; [|now right].
    destruct (read_csv content) as [| |frame]; try now right.
    destruct (has_column frame "total_amount" && has_column frame "vendor_name");
      [|now right].
    destruct (anomalies_of to_datetime thr frame); [now right|].
    left. apply same_disk; [|now rewrite E, E'].
    etransitivity; [apply detect_frame|]. cbn [LOG_FILE].
    symmetry. rewrite <- L. apply detect_frame.
Qed.

End ReportProps.

(** ** The refresh button *)

Module RefreshProps.
Import Py Pandas App.

Definition documents (files : Files) : BulkProcessor.Disk :=
  {| BulkProcessor.LOG_FILE := LOG_FILE files;
     BulkProcessor.pdf_files := pdf_files files |}.

Lemma same_documents (a b : BulkProcessor.Disk) :
  BulkProcessor.LOG_FILE a = BulkProcessor.LOG_FILE b ->
  BulkProcessor.pdf_files a = BulkProcessor.pdf_files b -> a = b.
Proof. destruct a, b. simpl. congruence. Qed.

Section Run.
Variable fitz_open : string -> res (list (res text)).
Variable generate_content : text -> ExtractionEngine.response.
Variable json_loads : text -> res ExtractionEngine.json.
Variable to_datetime : cell -> option Z.
Variable generate_summary : list AnomalyDetector.anomaly -> res string.

Local Abbreviation pipeline :=
  (run_processing_pipeline fitz_open generate_content json_loads
     to_datetime generate_summary).
Local Abbreviation bulk :=
  (LoopFacts.run fitz_open generate_content json_loads).
Local Abbreviation detect :=
  (DetectFacts.detect to_datetime generate_summary
     AnomalyDetector.default_spike_threshold).

(** The files after the two scripts. *)
Definition refreshed (c : Credentials) (files : Files) : Files :=
  let log := BulkProcessor.LOG_FILE (BulkProcessor.disk (bulk c (documents files))) in
  {| LOG_FILE := log;
     REPORT_FILE :=
       AnomalyDetector.REPORT_FILE
         (AnomalyDetector.disk
            (detect c {| AnomalyDetector.LOG_FILE := log;
                         AnomalyDetector.REPORT_FILE := REPORT_FILE files |}));
     pdf_files := pdf_files files |}.

Lemma bulk_keeps_documents c d :
  BulkProcessor.pdf_files (BulkProcessor.disk (bulk c d))
  = BulkProcessor.pdf_files d.
Proof.
  destruct (LedgerProps.run_disk fitz_open generate_content json_loads c d)
    as [->|(P & r & rs & _ & _ & _ & ->)]; reflexivity.
Qed.

Lemma pipeline_ok c files :
  BulkProcessor.ended (bulk c (documents files)) = Ret tt ->
  pipeline c files = (refreshed c files, DataRefreshed).
Proof.
  intros E. unfold run_processing_pipeline, refreshed.
  fold (documents files).
  change (BulkProcessor.bulk_process_invoices fitz_open generate_content
            json_loads c (documents files))
    with (bulk c (documents files)).
  rewrite E. cbv zeta. cbn [LOG_FILE REPORT_FILE pdf_files].
  rewrite bulk_keeps_documents.
  change (AnomalyDetector.detect_financial_anomalies to_datetime
            generate_summary AnomalyDetector.default_spike_threshold)
    with detect.
  set (d := {| AnomalyDetector.LOG_FILE := _; AnomalyDetector.REPORT_FILE := _ |}).
  destruct (DetectFacts.detect_frame to_datetime generate_summary
              AnomalyDetector.default_spike_threshold c d) as [L ->].
  rewrite L. reflexivity.
Qed.

Lemma pipeline_error c files e :
  BulkProcessor.ended (bulk c (documents files)) = Raise e ->
  pipeline c files = (files, PipelineError e)
  /\ truthy (BulkProcessor.resolve_api_key c) = true
  /\ BulkProcessor.get_processed_files (LOG_FILE files) = Raise e.
Proof.
  intros E.
  destruct (truthy (BulkProcessor.resolve_api_key c)) eqn:K;
    [|rewrite (RunFacts.run_without_key _ _ _ c _ K) in E; discriminate].
  destruct (RunFacts.run_ends fitz_open generate_content json_loads c
              (documents files)) as [R|(e' & R & G)];
    rewrite R in E; [discriminate|]. injection E as ->.
  split; [|split; [reflexivity|exact G]].
  unfold run_processing_pipeline. fold (documents files).
  change (BulkProcessor.bulk_process_invoices fitz_open generate_content
            json_loads c (documents files))
    with (bulk c (documents files)).
  rewrite R. cbv zeta.
  rewrite (RunFacts.run_unreadable _ _ _ c _ e K G).
  now destruct files.
Qed.

End Run.

(** X18.  The refresh shows an error exactly when a key is found and the
    master log cannot be parsed; the files are then as they were and the
    detection is not run.  In every other case it shows success, also when
    no key is found and nothing was read; it never touches the documents. *)
Theorem refresh_fails_only_on_an_unreadable_log :
  forall (fitz_open : string -> res (list (res text)))
         (generate_content : text -> ExtractionEngine.response)
         (json_loads : text -> res ExtractionEngine.json)
         (to_datetime : cell -> option Z)
         (generate_summary : list AnomalyDetector.anomaly -> res string)
         (c : Credentials) (files : Files),
    let result :=
      run_processing_pipeline fitz_open generate_content json_loads
        to_datetime generate_summary c files in
    (forall e,
        snd result = PipelineError e <->
        truthy (BulkProcessor.resolve_api_key c) = true
        /\ BulkProcessor.get_processed_files (LOG_FILE files) = Raise e)
    /\ (forall e, snd result = PipelineError e -> fst result = files)
    /\ (snd result = DataRefreshed \/ exists e, snd result = PipelineError e)
    /\ (truthy (BulkProcessor.resolve_api_key c) = false ->
        snd result = DataRefreshed /\ LOG_FILE (fst result) = LOG_FILE files)
    /\ pdf_files (fst result) = pdf_files files.
Proof.
  intros fitz_open generate_content json_loads to_datetime generate_summary
    c files result. subst result.
  destruct (BulkProcessor.ended
              (LoopFacts.run fitz_open generate_content json_loads c
                 (documents files))) as [[]|e] eqn:E.
  - rewrite (pipeline_ok _ _ _ to_datetime generate_summary c files E).
    cbn [fst snd].
    split; [|split; [|split; [|split]]].
    + intros e. split; [discriminate|]. intros [K G].
      rewrite (RunFacts.run_unreadable _ _ _ c (documents files) e K G) in E.
      discriminate.
    + discriminate.
    + now left.
    + intros K. split; [reflexivity|]. unfold refreshed. cbn [LOG_FILE].
      now rewrite (RunFacts.run_without_key _ _ _ c _ K).
    + reflexivity.
  - destruct (pipeline_error _ _ _ to_datetime generate_summary c files e E)
      as (-> & K & G).
    cbn [fst snd].
    split; [|split; [|split; [|split]]].
    + intros e'. split.
      * intros [= ->]. now split.
      * intros [_ G']. rewrite G in G'. now injection G' as ->.
    + reflexivity.
    + right. now exists e.
    + intros K'. rewrite K in K'. discriminate.
    + reflexivity.
Qed.

Definition two_invoices : Files :=
  {| LOG_FILE := None; REPORT_FILE := None; pdf_files := ["a.pdf"; "b.pdf"] |}.

(** X19.  Started without a master log, the refresh cannot fail, and a
    second refresh changes nothing: it shows success again and leaves the
    log and the report of the first. *)
Theorem refresh_twice_from_scratch :
  forall (fitz_open : string -> res (list (res text)))
         (generate_content : text -> ExtractionEngine.response)
         (json_loads : text -> res ExtractionEngine.json)
         (to_datetime : cell -> option Z)
         (generate_summary : list AnomalyDetector.anomaly -> res string)
         (c : Credentials) (files : Files),
    LOG_FILE files = None ->
    let pipeline :=
      run_processing_pipeline fitz_open generate_content json_loads
        to_datetime generate_summary c in
    snd (pipeline files) = DataRefreshed
    /\ pipeline (fst (pipeline files)) = (fst (pipeline files), DataRefreshed).
Proof.
  intros fitz_open generate_content json_loads to_datetime generate_summary
    c files L pipeline. subst pipeline.
  assert (R := IdempotenceRule.rerun fitz_open generate_content json_loads c
                 (documents files)).
  assert (F := LedgerProps.fresh_ready fitz_open generate_content json_loads c
                 (documents files) L).
  destruct R as [R1 R2]; [simpl; now rewrite L|exact F|].
  assert (E : BulkProcessor.ended
                (LoopFacts.run fitz_open generate_content json_loads c
                   (documents files)) = Ret tt).
  { destruct (RunFacts.run_ends fitz_open generate_content json_loads c
                (documents files)) as [E|(e & _ & G)]; [exact E|].
    simpl in G. rewrite L in G. discriminate. }
  rewrite (pipeline_ok _ _ _ to_datetime generate_summary c files E).
  cbn [fst snd]. split; [reflexivity|].
  assert (D : documents (refreshed fitz_open generate_content json_loads
                           to_datetime generate_summary c files)
              = BulkProcessor.disk
                  (LoopFacts.run fitz_open generate_content json_loads c
                     (documents files))).
  { apply same_documents; [reflexivity|].
    symmetry.
    exact (bulk_keeps_documents fitz_open generate_content json_loads c
             (documents files)). }
  assert (E2 : BulkProcessor.ended
                 (LoopFacts.run fitz_open generate_content json_loads c
                    (documents
                       (refreshed fitz_open generate_content json_loads
                          to_datetime generate_summary c files)))
               = Ret tt) by (rewrite D; exact R2).
  rewrite (pipeline_ok _ _ _ to_datetime generate_summary c _ E2). f_equal.
  unfold refreshed at 1. rewrite D, R1.
  set (once := refreshed _ _ _ _ _ c files).
  set (log := BulkProcessor.LOG_FILE _).
  assert (O : {| AnomalyDetector.LOG_FILE := log;
                 AnomalyDetector.REPORT_FILE := REPORT_FILE once |}
              = AnomalyDetector.disk
                  (DetectFacts.detect to_datetime generate_summary
                     AnomalyDetector.default_spike_threshold c
                     {| AnomalyDetector.LOG_FILE := log;
                        AnomalyDetector.REPORT_FILE := REPORT_FILE files |})).
  { apply ReportProps.same_disk; [|reflexivity].
    symmetry.
    exact (proj1 (DetectFacts.detect_frame to_datetime generate_summary
                    AnomalyDetector.default_spike_threshold c _)). }
  rewrite O, ReportProps.detect_again. reflexivity.
Qed.

Lemma refresh_twice_from_scratch_witness :
  LOG_FILE two_invoices = None
  /\ run_processing_pipeline RunFacts.sample_fitz RunFacts.sample_model
       RunFacts.sample_loads (fun _ => None) (fun _ => Ret "summary")
       RunFacts.with_key
       (fst (run_processing_pipeline RunFacts.sample_fitz RunFacts.sample_model
               RunFacts.sample_loads (fun _ => None) (fun _ => Ret "summary")
               RunFacts.with_key two_invoices))
     = (fst (run_processing_pipeline RunFacts.sample_fitz RunFacts.sample_model
               RunFacts.sample_loads (fun _ => None) (fun _ => Ret "summary")
               RunFacts.with_key two_invoices),
        DataRefreshed).
Proof.
  split; [reflexivity|].
  exact (proj2 (refresh_twice_from_scratch RunFacts.sample_fitz
                  RunFacts.sample_model RunFacts.sample_loads
                  (fun _ => None) (fun _ => Ret "summary")
                  RunFacts.with_key two_invoices eq_refl)).
Defined.

End RefreshProps.
